(** * Value-realization aggregation of the realization service

    A shallow embedding of [process_realization]
    (blueprint/infra/backend/services/realization/main.py) and the
    properties of the KPI aggregation it performs: grouping of telemetry by
    KPI, the per-KPI mean and variance, and the renewal alert.  Two further
    parts follow it: the task runs of the production-readiness orchestrator
    and the handler of the integrity service. *)

From Stdlib Require Import QArith.
From stdpp Require Import gmap strings list fin_maps.

Open Scope string_scope.
Open Scope list_scope.

(** ** Numbers

    Telemetry values are Python floats.  The handler only adds them, divides
    a sum by a length, subtracts a target and compares with zero; the
    embedding is generic in these operations, so that every theorem holds
    for whatever arithmetic the interpreter performs. *)

Class PyNumber (num : Type) := {
  zero : num;                      (* the [0] that [sum] starts from, and of [variance < 0] *)
  add : num → num → num;           (* [+] *)
  sub : num → num → num;           (* [-] *)
  div : num → num → num;           (* [/] with a non-zero divisor *)
  of_nat : nat → num;              (* an [int] such as [len(values)] used as a number *)
  of_int : Z → num;                (* an [int] of the request body, converted to a float *)
  ltb : num → num → bool           (* [<] *)
}.

(** Python's [==] on numbers, and what the single-sample case needs of
    it.  The laws are stated for finite numbers (neither [nan] nor an
    infinity), on which IEEE doubles satisfy them: [0 + x] and [x / 1] are
    [x], up to the sign of a zero, which [==] does not see. *)
Class PyNumberEq (num : Type) `{PyNumber num} := {
  num_eq : num → num → Prop;
  finite : num → Prop;
  num_eq_trans : ∀ x y z : num, num_eq x y → num_eq y z → num_eq x z;
  add_zero_eq : ∀ x : num, finite x → finite (add zero x) ∧ num_eq (add zero x) x;
  div_one_eq : ∀ x : num, finite x → num_eq (div x (of_nat 1)) x
}.

(** ** Python values

    [valueCommit] is declared [Dict[str, Any]]: what sits under its keys is
    whatever the JSON body held.  [PNum] is a JSON number written with a
    fraction or an exponent, a float; [PInt] is a JSON integer, which stays
    an [int] of any size. *)

#[local] Set Warnings "-register-all".

Inductive pyval (num : Type) : Type :=
  | PNone
  | PBool (b : bool)
  | PNum (x : num)
  | PStr (s : string)
  | PList (l : list (pyval num))
  | PDict (d : gmap string (pyval num))
  | PInt (n : Z).

Arguments PNone {num}.
Arguments PBool {num} b.
Arguments PNum {num} x.
Arguments PStr {num} s.
Arguments PList {num} l.
Arguments PDict {num} d.
Arguments PInt {num} n.

(** ** Exceptions and the error monad *)

Inductive pyexn : Type :=
  | KeyError (key : string)
  | TypeError
  | ZeroDivisionError
  | OverflowError.

Inductive res (A : Type) : Type :=
  | Ok (a : A)
  | Raise (e : pyexn).

Arguments Ok {A} a.
Arguments Raise {A} e.

#[global] Instance res_ret : MRet res := λ A a, Ok a.

#[global] Instance res_bind : MBind res := λ A B k m,
  match m with
  | Ok a => k a
  | Raise e => Raise e
  end.

(** The handler turns every exception of its body into an HTTP 500. *)

Inductive http (A : Type) : Type :=
  | Response (body : A)
  | HTTPException (status_code : nat) (detail : pyexn).

Arguments Response {A} body.
Arguments HTTPException {A} status_code detail.

Section Realization.

Context {num : Type} `{!PyNumber num}.

#[local] Abbreviation pyval := (pyval num).
#[local] Abbreviation pydict := (gmap string pyval).

(** ** Request and response models *)

Record Telemetry : Type := {
  kpiId : string;
  timestamp : string;
  value : num
}.

Record RealizationRequest : Type := {
  valueCommit : pydict;
  telemetryData : list Telemetry
}.

(** One entry of [results]; a field holding Python's [None] is [PNone]
    (or [None] for [variance], which is otherwise a float). *)
Record KpiResult : Type := {
  result_kpiId : string;
  result_actualValue : num;
  result_targetValue : pyval;
  result_unit : pyval;
  result_variance : option num
}.

(** The [report] dict: its four keys are always present. *)
Record Report : Type := {
  report_id : string;
  report_valueCommitId : pyval;
  report_generatedAt : string;
  report_results : list KpiResult
}.

(** The response model; [renewalAlert] stays a dict because its key set
    depends on the outcome. *)
Record RealizationReport : Type := {
  realizationReport : Report;
  renewalAlert : pydict
}.

(** ** Dictionary access *)

(** [d.get(k)]: the value under [k], [None] when the key is missing. *)
Definition dict_get (d : pydict) (k : string) : pyval :=
  default PNone (d !! k).

(** [d.get(k, dflt)]. *)
Definition dict_get_default (d : pydict) (k : string) (dflt : pyval) : pyval :=
  default dflt (d !! k).

(** [for t in v]: the items a [for] clause draws from a value.  A string
    yields its characters and a dict its keys. *)
Definition py_iter (v : pyval) : res (list pyval) :=
  match v with
  | PList l => Ok l
  | PStr s => Ok ((λ c, PStr (String c "")) <$> String.list_ascii_of_string s)
  | PDict d => Ok (PStr <$> (map_to_list d).*1)
  | PNone | PBool _ | PNum _ | PInt _ => Raise TypeError
  end.

(** ** Line 34: the [targets] comprehension

    [{t['kpiId']: t for t in ...}].  [t['kpiId']] needs [t] to be a dict
    holding the key, and the key value must be hashable.  The dict built is
    later read under [str] keys only, so it is kept as its restriction to
    [str] keys: an entry whose key is [None], a bool or a number is
    evaluated (it can raise) and then never seen again. *)
Fixpoint build_targets (ts : list pyval) (targets : gmap string pydict)
  : res (gmap string pydict) :=
  match ts with
  | [] => Ok targets
  | t :: rest =>
      match t with
      | PDict d =>
          match d !! "kpiId" with
          | None => Raise (KeyError "kpiId")
          | Some (PStr k) => build_targets rest (<[k := d]> targets)
          | Some (PList _) | Some (PDict _) => Raise TypeError
          | Some PNone | Some (PBool _) | Some (PNum _) | Some (PInt _) =>
              build_targets rest targets
          end
      | PNone | PBool _ | PNum _ | PStr _ | PList _ | PInt _ => Raise TypeError
      end
  end.

(** ** Lines 35-37: grouping

    [aggregates] is a dict from kpiId to the list of its values; Python
    dicts iterate in insertion order, so it is an association list in the
    order in which the keys were first inserted. *)

(** [aggregates.setdefault(k, []).append(v)]. *)
Fixpoint setdefault_append (aggregates : list (string * list num))
  (k : string) (v : num) : list (string * list num) :=
  match aggregates with
  | [] => [(k, [v])]
  | (k', values) :: rest =>
      if decide (k' = k) then (k', values ++ [v]) :: rest
      else (k', values) :: setdefault_append rest k v
  end.

Definition group_telemetry (telemetry : list Telemetry) : list (string * list num) :=
  foldl (λ aggregates t, setdefault_append aggregates (kpiId t) (value t)) [] telemetry.

(** ** Lines 40-55: one result per group *)

(** [sum(values)]: from left to right, starting at 0. *)
Definition py_sum (values : list num) : num := foldl add zero values.

(** [x / n] for a float [x] and an int [n]. *)
Definition py_truediv (x : num) (n : nat) : res num :=
  if decide (n = 0) then Raise ZeroDivisionError else Ok (div x (of_nat n)).

(** An [int] that arithmetic with a float can convert: the conversion
    rounds to the nearest double and raises [OverflowError] when the result
    is not finite, which is the case from 2^1024 - 2^970 on. *)
Definition fits_float (n : Z) : bool :=
  bool_decide (Z.abs n < 2 ^ 1024 - 2 ^ 970)%Z.

(** [actual - target] for a float [actual] and a [target] that is not
    [None]: a float is subtracted as it is, an [int] or a [bool] after its
    conversion to a float. *)
Definition py_sub (actual : num) (target : pyval) : res num :=
  match target with
  | PNum x => Ok (sub actual x)
  | PInt n => if fits_float n then Ok (sub actual (of_int n)) else Raise OverflowError
  | PBool b => Ok (sub actual (of_nat (if b then 1 else 0)))
  | PNone | PStr _ | PList _ | PDict _ => Raise TypeError
  end.

(** The body of the loop for one item of [aggregates.items()]: the result
    appended and the new value of [renewal_flag]. *)
Definition kpi_result (targets : gmap string pydict) (kpi_id : string)
  (values : list num) (renewal_flag : bool) : res (KpiResult * bool) :=
  actual ← py_truediv (py_sum values) (length values);
  let matched := default ∅ (targets !! kpi_id) in
  let target := dict_get matched "targetValue" in
  let unit := dict_get matched "unit" in
  match target with
  | PNone =>
      Ok ({| result_kpiId := kpi_id; result_actualValue := actual;
             result_targetValue := target; result_unit := unit;
             result_variance := None |}, renewal_flag)
  | _ =>
      variance ← py_sub actual target;
      Ok ({| result_kpiId := kpi_id; result_actualValue := actual;
             result_targetValue := target; result_unit := unit;
             result_variance := Some variance |},
          if ltb variance zero then true else renewal_flag)
  end.

Fixpoint results_loop (targets : gmap string pydict)
  (items : list (string * list num)) (results : list KpiResult)
  (renewal_flag : bool) : res (list KpiResult * bool) :=
  match items with
  | [] => Ok (results, renewal_flag)
  | (kpi_id, values) :: rest =>
      '(r, flag) ← kpi_result targets kpi_id values renewal_flag;
      results_loop targets rest (results ++ [r]) flag
  end.

(** ** Lines 56-65: report and alert *)

Definition advisory : string := "Value delivery below target for one or more KPIs".

Definition make_alert (renewal_flag : bool) : pydict :=
  if renewal_flag
  then <["message" := PStr advisory]> {["status" := PStr "risk"]}
  else {["status" := PStr "ok"]}.

(** The [try] block. *)
Definition realization_body (data : RealizationRequest) : res RealizationReport :=
  ts ← py_iter (dict_get_default (valueCommit data) "kpiTargets" (PList []));
  targets ← build_targets ts ∅;
  let aggregates := group_telemetry (telemetryData data) in
  '(results, renewal_flag) ← results_loop targets aggregates [] false;
  let report := {| report_id := "auto-generated";
                   report_valueCommitId := dict_get (valueCommit data) "id";
                   report_generatedAt := "2025-11-17T00:00:00Z";
                   report_results := results |} in
  Ok {| realizationReport := report; renewalAlert := make_alert renewal_flag |}.

(** [process_realization]: the body, with [except Exception] mapping any
    failure to status 500. *)
Definition process_realization (data : RealizationRequest) : http RealizationReport :=
  match realization_body data with
  | Ok response => Response response
  | Raise e => HTTPException 500 e
  end.

(** A call of the endpoint happens at some instant [now] of the server's
    clock.  Nothing in the handler reads the clock ([generatedAt] is a
    literal), so the instant of the call does not reach the body. *)
Definition process_realization_at (now : string) (data : RealizationRequest)
  : http RealizationReport :=
  process_realization data.

(** ** Vocabulary of the specification *)

(** The values of all samples of KPI [k], in arrival order, each sample
    once. *)
Definition group_values (k : string) (telemetry : list Telemetry) : list num :=
  value <$> filter (λ t, kpiId t = k) telemetry.

(** Sum over count. *)
Definition arithmetic_mean (values : list num) : num :=
  div (py_sum values) (of_nat (length values)).

(** The distinct keys of a sequence, each at the place of its first
    occurrence. *)
Fixpoint first_observed (ks : list string) : list string :=
  match ks with
  | [] => []
  | k :: rest => k :: filter (λ k', k' ≠ k) (first_observed rest)
  end.

(** A result whose variance is present and below zero. *)
Definition under_target (r : KpiResult) : bool :=
  match result_variance r with
  | Some variance => ltb variance zero
  | None => false
  end.

(** [r] is the result the loop body appends for the group [item]. *)
Definition emitted_for (targets : gmap string pydict)
  (item : string * list num) (r : KpiResult) : Prop :=
  ∃ flag flag', kpi_result targets item.1 item.2 flag = Ok (r, flag').

(** Some entry of the commit's [kpiTargets] list is a target for KPI [k]. *)
Definition has_target (data : RealizationRequest) (k : string) : Prop :=
  ∃ (ts : list pyval) (d : pydict),
    valueCommit data !! "kpiTargets" = Some (PList ts) ∧
    PDict d ∈ ts ∧ d !! "kpiId" = Some (PStr k).

(** Well-typed input: a [KpiTarget] has a string [kpiId], a numeric
    [targetValue] and a string [unit]; a [ValueCommit] has a string [id] and
    a list of targets under [kpiTargets]. *)
Definition is_str (v : pyval) : bool :=
  match v with PStr _ => true | _ => false end.

Definition is_num (v : pyval) : bool :=
  match v with PNum _ | PInt _ => true | _ => false end.

Definition is_KpiTarget (t : pyval) : bool :=
  match t with
  | PDict d =>
      is_str (dict_get d "kpiId") && is_num (dict_get d "targetValue")
      && is_str (dict_get d "unit")
  | _ => false
  end.

Definition is_ValueCommit (vc : pydict) : bool :=
  is_str (dict_get vc "id") &&
  match dict_get vc "kpiTargets" with
  | PList ts => forallb is_KpiTarget ts
  | _ => false
  end.

(** A target value within the range of a float: every float, and the
    integers that convert to one. *)
Definition representable (v : pyval) : bool :=
  match v with PInt n => fits_float n | _ => true end.

Definition targets_representable (vc : pydict) : bool :=
  match dict_get vc "kpiTargets" with
  | PList ts =>
      forallb (λ t, match t with
                    | PDict d => representable (dict_get d "targetValue")
                    | _ => true
                    end) ts
  | _ => true
  end.

(** The sum of a sequence: nothing for the empty one, and each further
    element added once to the sum of those before it. *)
Inductive sums_to : list num → num → Prop :=
  | sums_to_nil : sums_to [] zero
  | sums_to_snoc (values : list num) (total x : num) :
      sums_to values total → sums_to (values ++ [x]) (add total x).

End Realization.

Arguments Telemetry num : clear implicits.
Arguments RealizationRequest num : clear implicits.
Arguments KpiResult num : clear implicits.
Arguments Report num : clear implicits.
Arguments RealizationReport num : clear implicits.

(** ** Exact arithmetic

    The rationals, with their exact operations, give an instance of the
    number interface on which every definition computes. *)

Module QNum.

Definition Qltb (x y : Q) : bool := negb (Qle_bool y x).

#[export] Instance Q_number : PyNumber Q := {|
  zero := 0%Q;
  add := Qplus;
  sub := Qminus;
  div := Qdiv;
  of_nat n := inject_Z (Z.of_nat n);
  of_int := inject_Z;
  ltb := Qltb
|}.

End QNum.

(** ** Sample requests *)

Module Samples.
Import QNum.

Definition target_dict (k : string) (x : Q) (u : string) : gmap string (pyval Q) :=
  <["kpiId" := PStr k]> (<["targetValue" := PNum x]> {["unit" := PStr u]}).

Definition target (k : string) (x : Q) (u : string) : pyval Q :=
  PDict (target_dict k x u).

Definition commit (ts : list (pyval Q)) : gmap string (pyval Q) :=
  <["id" := PStr "vc-1"]> {["kpiTargets" := PList ts]}.

Definition sample (k : string) (x : Q) : Telemetry Q :=
  {| kpiId := k; timestamp := "2025-11-01T00:00:00Z"; value := x |}.

Definition row (k : string) (actual : Q) (target unit : pyval Q)
  (variance : option Q) : KpiResult Q :=
  {| result_kpiId := k; result_actualValue := actual;
     result_targetValue := target; result_unit := unit;
     result_variance := variance |}.

Definition response (results : list (KpiResult Q)) (alert : gmap string (pyval Q))
  : RealizationReport Q :=
  {| realizationReport :=
       {| report_id := "auto-generated"; report_valueCommitId := PStr "vc-1";
          report_generatedAt := "2025-11-17T00:00:00Z";
          report_results := results |};
     renewalAlert := alert |}.

Definition ok_alert : gmap string (pyval Q) := {["status" := PStr "ok"]}.

Definition risk_alert : gmap string (pyval Q) :=
  <["message" := PStr "Value delivery below target for one or more KPIs"]>
    {["status" := PStr "risk"]}.

(** Two samples averaging exactly the target. *)
Definition on_target : RealizationRequest Q :=
  {| valueCommit := commit [target "time-saved" 15 "percent"];
     telemetryData := [sample "time-saved" 10; sample "time-saved" 20] |}.

Definition on_target_response : RealizationReport Q :=
  response [row "time-saved" (30 # 2) (PNum 15%Q) (PStr "percent") (Some (0 # 2))]
    ok_alert.

(** One sample below the target. *)
Definition below_target : RealizationRequest Q :=
  {| valueCommit := commit [target "revenue" 50000 "usd"];
     telemetryData := [sample "revenue" 30000] |}.

Definition below_target_row : KpiResult Q :=
  row "revenue" 30000 (PNum 50000%Q) (PStr "usd") (Some (-20000)%Q).

Definition below_target_response : RealizationReport Q :=
  response [below_target_row] risk_alert.

(** Interleaved KPIs, one of them without a target, and a target that no
    sample refers to. *)
Definition mixed : RealizationRequest Q :=
  {| valueCommit := commit [target "revenue" 50000 "usd"; target "nps" 40 "points"];
     telemetryData := [sample "latency" 120; sample "revenue" 30000;
                       sample "latency" 80; sample "revenue" 40000] |}.

Definition latency_row : KpiResult Q :=
  row "latency" (200 # 2) PNone PNone None.

Definition mixed_response : RealizationReport Q :=
  response [latency_row;
            row "revenue" (70000 # 2) (PNum 50000%Q) (PStr "usd") (Some (-30000 # 2))]
    risk_alert.

(** Two targets for the same KPI. *)
Definition duplicated_target : RealizationRequest Q :=
  {| valueCommit := commit [target "revenue" 50000 "usd"; target "revenue" 10 "eur"];
     telemetryData := [sample "revenue" 30000] |}.

Definition duplicated_target_row : KpiResult Q :=
  row "revenue" 30000 (PNum 10%Q) (PStr "eur") (Some 29990%Q).

Definition duplicated_target_response : RealizationReport Q :=
  response [duplicated_target_row] ok_alert.

(** No telemetry at all. *)
Definition no_telemetry : RealizationRequest Q :=
  {| valueCommit := commit [target "revenue" 50000 "usd"; target "nps" 40 "points"];
     telemetryData := [] |}.

Definition no_telemetry_response : RealizationReport Q := response [] ok_alert.

End Samples.

(** ** The response as a function of the request

    A second description of the handler, by cases on the request instead of
    by loops, against which the handler is compared below. *)

Section Reference.

Context {num : Type} `{!PyNumber num}.

#[local] Abbreviation pyval := (pyval num).
#[local] Abbreviation pydict := (gmap string pyval).

(** The dict of [t] if [t] is an entry for KPI [k]: a dict whose [kpiId]
    is the string [k]. *)
Definition target_for (k : string) (t : pyval) : option pydict :=
  match t with
  | PDict d =>
      match d !! "kpiId" with
      | Some (PStr k') => if decide (k' = k) then Some d else None
      | _ => None
      end
  | _ => None
  end.

(** The last entry for [k] in a list of entries. *)
Fixpoint last_target (ts : list pyval) (k : string) : option pydict :=
  match ts with
  | [] => None
  | t :: rest =>
      match last_target rest k with
      | Some d => Some d
      | None => target_for k t
      end
  end.

(** The string under which an entry is filed, if any. *)
Definition target_key (t : pyval) : option string :=
  match t with
  | PDict d => match d !! "kpiId" with Some (PStr k) => Some k | _ => None end
  | _ => None
  end.

(** An entry the comprehension of line 34 can file: a dict with a
    [kpiId] that is hashable. *)
Definition keyed (t : pyval) : bool :=
  match t with
  | PDict d =>
      match d !! "kpiId" with
      | None | Some (PList _) | Some (PDict _) => false
      | Some _ => true
      end
  | _ => false
  end.

(** A [targetValue] line 46 can handle: [None] skips the subtraction; a
    float, a bool and an [int] that converts to a float can be subtracted
    from a float. *)
Definition subtractable (v : pyval) : bool :=
  match v with
  | PNone | PNum _ | PBool _ => true
  | PInt n => fits_float n
  | PStr _ | PList _ | PDict _ => false
  end.

(** What line 46 raises on a [targetValue] it cannot handle. *)
Definition subtraction_error (v : pyval) : pyexn :=
  match v with
  | PInt _ => OverflowError
  | _ => TypeError
  end.

(** The number a numeric [targetValue] is subtracted as. *)
Definition target_number (v : pyval) : option num :=
  match v with
  | PNum x => Some x
  | PInt n => Some (of_int n)
  | _ => None
  end.

(** The entries of [kpiTargets], none when the value cannot be iterated. *)
Definition commit_targets (data : RealizationRequest num) : list pyval :=
  match py_iter (dict_get_default (valueCommit data) "kpiTargets" (PList [])) with
  | Ok ts => ts
  | Raise _ => []
  end.

(** The dict [targets.get(k, {})] ends up being. *)
Definition matched_target (data : RealizationRequest num) (k : string) : pydict :=
  default ∅ (last_target (commit_targets data) k).

(** The requests the handler answers with a report: [kpiTargets] can be
    iterated, each entry can be filed, and each KPI that has samples has a
    [targetValue] that can be subtracted. *)
Definition accepted (data : RealizationRequest num) : bool :=
  match py_iter (dict_get_default (valueCommit data) "kpiTargets" (PList [])) with
  | Ok ts =>
      forallb keyed ts &&
      forallb (λ k, subtractable (dict_get (matched_target data k) "targetValue"))
        (kpiId <$> telemetryData data)
  | Raise _ => false
  end.

(** The result for a KPI with the given values and matched target dict. *)
Definition expected_result (k : string) (values : list num) (matched : pydict)
  : KpiResult num :=
  let actual := arithmetic_mean values in
  {| result_kpiId := k;
     result_actualValue := actual;
     result_targetValue := dict_get matched "targetValue";
     result_unit := dict_get matched "unit";
     result_variance :=
       match dict_get matched "targetValue" with
       | PNum x => Some (sub actual x)
       | PInt n => Some (sub actual (of_int n))
       | PBool b => Some (sub actual (of_nat (if b then 1 else 0)))
       | _ => None
       end |}.

Definition expected_results (data : RealizationRequest num) : list (KpiResult num) :=
  (λ k, expected_result k (group_values k (telemetryData data)) (matched_target data k))
    <$> first_observed (kpiId <$> telemetryData data).

Definition expected_response (data : RealizationRequest num) : RealizationReport num :=
  {| realizationReport :=
       {| report_id := "auto-generated";
          report_valueCommitId := dict_get (valueCommit data) "id";
          report_generatedAt := "2025-11-17T00:00:00Z";
          report_results := expected_results data |};
     renewalAlert := make_alert (existsb under_target (expected_results data)) |}.

(** The request with only the samples of KPI [k]. *)
Definition only_kpi (k : string) (data : RealizationRequest num)
  : RealizationRequest num :=
  {| valueCommit := valueCommit data;
     telemetryData := filter (λ t, kpiId t = k) (telemetryData data) |}.

(** The request with another list under [kpiTargets]. *)
Definition with_targets (ts : list pyval) (data : RealizationRequest num)
  : RealizationRequest num :=
  {| valueCommit := <["kpiTargets" := PList ts]> (valueCommit data);
     telemetryData := telemetryData data |}.

(** What line 34 raises on an entry it cannot file: a dict without
    [kpiId] gives [KeyError]; anything that is not a dict, or a [kpiId] that
    is a list or a dict, gives [TypeError]. *)
Definition filing_error (t : pyval) : pyexn :=
  match t with
  | PDict d =>
      match d !! "kpiId" with
      | None => KeyError "kpiId"
      | Some _ => TypeError
      end
  | _ => TypeError
  end.

(** The request with one more sample at the end of the telemetry. *)
Definition with_sample (t : Telemetry num) (data : RealizationRequest num)
  : RealizationRequest num :=
  {| valueCommit := valueCommit data;
     telemetryData := telemetryData data ++ [t] |}.

(** The samples as the handler reads them: kpiId and value. *)
Definition reading (t : Telemetry num) : string * num := (kpiId t, value t).

End Reference.

(** ** More sample requests *)

Module MoreSamples.
Import QNum Samples.

(** A commit without [kpiTargets]. *)
Definition no_targets : RealizationRequest Q :=
  {| valueCommit := {["id" := PStr "vc-2"]};
     telemetryData := [sample "latency" 120; sample "revenue" 30000;
                       sample "latency" 80] |}.

(** A commit whose second entry has no [kpiId]. *)
Definition unkeyed_entry : gmap string (pyval Q) :=
  <["targetValue" := PNum 40%Q]> {["unit" := PStr "points"]}.

Definition unkeyed : RealizationRequest Q :=
  {| valueCommit := commit [target "revenue" 50000 "usd"; PDict unkeyed_entry;
                            target "nps" 40 "points"];
     telemetryData := [] |}.

(** The mixed request with other timestamps. *)
Definition mixed_later : RealizationRequest Q :=
  {| valueCommit := valueCommit mixed;
     telemetryData :=
       (λ t, {| kpiId := kpiId t; timestamp := "2026-02-02T12:00:00Z";
                value := value t |}) <$> telemetryData mixed |}.

(** A target of zero, met exactly, and a non-numeric target for a KPI
    without samples. *)
Definition zero_target : RealizationRequest Q :=
  {| valueCommit :=
       commit [target "defects" 0 "count";
               PDict (<["kpiId" := PStr "nps"]> {["targetValue" := PStr "forty"]})];
     telemetryData := [sample "defects" 0] |}.

Definition zero_target_row : KpiResult Q :=
  row "defects" 0 (PNum 0%Q) (PStr "count") (Some 0%Q).

(** A commit whose [kpiTargets] is a text. *)
Definition textual_targets : RealizationRequest Q :=
  {| valueCommit := <["id" := PStr "vc-3"]> {["kpiTargets" := PStr "none"]};
     telemetryData := [sample "revenue" 30000] |}.

(** A target whose value is written as an integer. *)
Definition int_target_dict (k : string) (n : Z) (u : string)
  : gmap string (pyval Q) :=
  <["kpiId" := PStr k]> (<["targetValue" := PInt n]> {["unit" := PStr u]}).

Definition int_target (k : string) (n : Z) (u : string) : pyval Q :=
  PDict (int_target_dict k n u).

(** The first scenario with its target written as the integer 15. *)
Definition on_target_int : RealizationRequest Q :=
  {| valueCommit := commit [int_target "time-saved" 15 "percent"];
     telemetryData := [sample "time-saved" 10; sample "time-saved" 20] |}.

Definition on_target_int_row : KpiResult Q :=
  row "time-saved" (30 # 2) (PInt 15) (PStr "percent") (Some (0 # 2)).

Definition on_target_int_response : RealizationReport Q :=
  response [on_target_int_row] ok_alert.

(** An integer target too large for a float. *)
Definition huge_target : RealizationRequest Q :=
  {| valueCommit := commit [int_target "time-saved" (2 ^ 1024) "percent"];
     telemetryData := [sample "time-saved" 10; sample "time-saved" 20] |}.

(** The request below target, followed by a sample of a new KPI. *)
Definition below_target_then_latency : RealizationReport Q :=
  response [below_target_row; row "latency" 120 PNone PNone None] risk_alert.

End MoreSamples.

(** * The production-readiness orchestrator

    scripts/production-readiness-orchestrator.py: the task table of
    [ProductionReadinessOrchestrator] and the methods that decide what runs
    next and what a run does to a task.  Logging changes neither the table
    nor a result and is left out; of the back-off sleeps it is the time
    they take that is left out, not the error one can raise. *)

Module Orchestrator.

Inductive Priority : Type := P0_CRITICAL | P1_HIGH | P2_MEDIUM | P3_LOW.

(** [priority.value]. *)
Definition priority_value (p : Priority) : Z :=
  match p with
  | P0_CRITICAL => 0
  | P1_HIGH => 1
  | P2_MEDIUM => 2
  | P3_LOW => 3
  end.

Inductive TaskStatus : Type :=
  NOT_STARTED | IN_PROGRESS | BLOCKED | COMPLETE | FAILED.

#[global] Instance Priority_eq_dec : EqDecision Priority.
Proof. solve_decision. Defined.

#[global] Instance TaskStatus_eq_dec : EqDecision TaskStatus.
Proof. solve_decision. Defined.

Record Task : Type := {
  id : string;
  name : string;
  description : string;
  priority : Priority;
  status : TaskStatus;
  sprint : Z;
  owner : string;
  estimated_hours : Z;
  actual_hours : Z;
  blockers : list string;
  dependencies : list string;
  acceptance_criteria : list string;
  retry_count : Z;
  max_retries : Z
}.

(** [task.status = s] and [task.retry_count = n]: a task is one object,
    reached through the table, so an assignment is an update of its entry. *)
Definition with_status (s : TaskStatus) (task : Task) : Task :=
  {| id := id task; name := name task; description := description task;
     priority := priority task; status := s; sprint := sprint task;
     owner := owner task; estimated_hours := estimated_hours task;
     actual_hours := actual_hours task; blockers := blockers task;
     dependencies := dependencies task;
     acceptance_criteria := acceptance_criteria task;
     retry_count := retry_count task; max_retries := max_retries task |}.

Definition with_retry_count (n : Z) (task : Task) : Task :=
  {| id := id task; name := name task; description := description task;
     priority := priority task; status := status task; sprint := sprint task;
     owner := owner task; estimated_hours := estimated_hours task;
     actual_hours := actual_hours task; blockers := blockers task;
     dependencies := dependencies task;
     acceptance_criteria := acceptance_criteria task;
     retry_count := n; max_retries := max_retries task |}.

(** [self.tasks]: a dict, kept in insertion order because [values()] is
    iterated; and the lines appended to escalations.json, each stood for by
    the task it reports (as it was when reported). *)
Record Orchestrator : Type := {
  tasks : list (string * Task);
  escalations : list Task
}.

(** [self.tasks.get(k)]. *)
Fixpoint tasks_get (table : list (string * Task)) (k : string) : option Task :=
  match table with
  | [] => None
  | (k', task) :: rest => if decide (k' = k) then Some task else tasks_get rest k
  end.

(** An assignment to an attribute of the task under key [k]. *)
Fixpoint tasks_update (f : Task → Task) (table : list (string * Task)) (k : string)
  : list (string * Task) :=
  match table with
  | [] => []
  | (k', task) :: rest =>
      if decide (k' = k) then (k', f task) :: rest
      else (k', task) :: tasks_update f rest k
  end.

Definition update_task (f : Task → Task) (self : Orchestrator) (k : string)
  : Orchestrator :=
  {| tasks := tasks_update f (tasks self) k; escalations := escalations self |}.

(** [_check_dependencies]. *)
Definition _check_dependencies (self : Orchestrator) (task : Task) : bool :=
  forallb (λ dep_id,
             match tasks_get (tasks self) dep_id with
             | Some dep_task => bool_decide (status dep_task = COMPLETE)
             | None => false
             end)
    (dependencies task).

(** [_validate_acceptance_criteria]. *)
Definition _validate_acceptance_criteria (task : Task) : bool :=
  bool_decide (status task = COMPLETE).

(** [_execute_task_logic]. *)
Definition _execute_task_logic (task : Task) : bool :=
  match status task with
  | COMPLETE => true
  | IN_PROGRESS => _validate_acceptance_criteria task
  | _ => false
  end.

(** [_escalate_critical_failure]: one more line in escalations.json.  The
    file is taken to accept the line; when it does not, [execute_task]
    catches the error, with the same table and the same result. *)
Definition _escalate_critical_failure (self : Orchestrator) (task : Task)
  : Orchestrator :=
  {| tasks := tasks self; escalations := escalations self ++ [task] |}.

(** [await asyncio.sleep(2 ** task.retry_count)], line 274.  The power is
    an int for an exponent from 0 on and a float below; the float power
    converts the exponent first, which raises [OverflowError] when it does
    not fit a float.  The delay is then added to the clock of the event
    loop, a float: from an exponent of 1024 on the power is beyond the
    floats and the addition raises [OverflowError] (a power too large to
    compute raises before that).  Otherwise the call waits and returns. *)
Definition backoff_sleep (retry_count : Z) : res unit :=
  if bool_decide (1024 ≤ retry_count)%Z || negb (fits_float retry_count)
  then Raise OverflowError
  else Ok tt.

Definition backoff_raises (retry_count : Z) : bool :=
  match backoff_sleep retry_count with Ok _ => false | Raise _ => true end.

(** Whether the retries of a task reach a back-off that raises: the first
    one does, or they go on to the one of 1024. *)
Definition backoff_overflows (task : Task) : bool :=
  bool_decide (retry_count task < max_retries task)%Z &&
  (backoff_raises (retry_count task + 1) || bool_decide (1024 ≤ max_retries task)%Z).

(** A task as a failed run leaves it: failed, with its retry count at
    [max_retries] unless it was already beyond, or at the count whose
    back-off raised. *)
Definition exhausted (task : Task) : Task :=
  with_status FAILED
    (with_retry_count
       (if backoff_overflows task
        then if backoff_raises (retry_count task + 1)
             then retry_count task + 1 else 1024
        else Z.max (retry_count task) (max_retries task))%Z
       task).

(** Whether a failed run escalates: the task is critical and the run ended
    in the branch of line 276, not in the handler of line 286. *)
Definition escalated (task : Task) : bool :=
  bool_decide (priority task = P0_CRITICAL) && negb (backoff_overflows task).

(** The retries a task still has. *)
Definition retries_left (task : Task) : nat :=
  Z.to_nat (max_retries task - retry_count task).

(** [execute_task], with the depth of its recursion as an explicit
    argument: each retry is one recursive call.  An error of the back-off
    is caught by the handler of lines 286-289 of the call that raised it. *)
Fixpoint execute_task_within (depth : nat) (self : Orchestrator) (task_id : string)
  : bool * Orchestrator :=
  match tasks_get (tasks self) task_id with
  | None => (false, self)
  | Some task =>
      if negb (_check_dependencies self task) then
        (false, update_task (with_status BLOCKED) self task_id)
      else if bool_decide (blockers task ≠ []) then
        (false, update_task (with_status BLOCKED) self task_id)
      else if _execute_task_logic task then
        (true, update_task (with_status COMPLETE) self task_id)
      else if bool_decide (retry_count task < max_retries task)%Z then
        match depth with
        | S depth' =>
            let self' :=
              update_task (with_retry_count (retry_count task + 1)) self task_id in
            match backoff_sleep (retry_count task + 1) with
            | Ok _ => execute_task_within depth' self' task_id
            | Raise _ => (false, update_task (with_status FAILED) self' task_id)
            end
        | O => (false, self)
        end
      else
        let self' := update_task (with_status FAILED) self task_id in
        (false,
         if bool_decide (priority task = P0_CRITICAL)
         then _escalate_critical_failure self' (with_status FAILED task)
         else self')
  end.

(** [execute_task]: the depth the retries of the task can reach. *)
Definition execute_task (self : Orchestrator) (task_id : string)
  : bool * Orchestrator :=
  execute_task_within
    (from_option retries_left 0 (tasks_get (tasks self) task_id)) self task_id.

(** What [execute_task] does, by cases on the task as it finds it. *)
Definition ran (self : Orchestrator) (task_id : string) : bool * Orchestrator :=
  match tasks_get (tasks self) task_id with
  | None => (false, self)
  | Some task =>
      if negb (_check_dependencies self task) || bool_decide (blockers task ≠ [])
      then (false, update_task (with_status BLOCKED) self task_id)
      else if bool_decide (status task = COMPLETE) then (true, self)
      else
        (false,
         {| tasks := tasks_update (λ _, exhausted task) (tasks self) task_id;
            escalations :=
              escalations self ++
              (if escalated task then [exhausted task] else []) |})
  end.

(** [sorted(l, key=key)]: ascending and stable. *)
Fixpoint insert_by {A : Type} (key : A → Z) (x : A) (l : list A) : list A :=
  match l with
  | [] => [x]
  | y :: rest =>
      if bool_decide (key x ≤ key y)%Z then x :: y :: rest
      else y :: insert_by key x rest
  end.

Definition sorted {A : Type} (key : A → Z) (l : list A) : list A :=
  foldr (insert_by key) [] l.

(** The test of [_get_next_task] on one task. *)
Definition available (self : Orchestrator) (t : Task) : bool :=
  bool_decide (status t = NOT_STARTED ∨ status t = IN_PROGRESS)
  && _check_dependencies self t
  && bool_decide (blockers t = []).

(** [_get_next_task]. *)
Definition _get_next_task (self : Orchestrator) : option Task :=
  head (sorted (λ t, priority_value (priority t))
          (filter (λ t, available self t = true) ((tasks self).*2))).



(** The table as [_initialize_tasks] builds it: each task under its own
    id, no key twice. *)
Definition well_keyed (self : Orchestrator) : Prop :=
  NoDup (tasks self).*1 ∧ Forall (λ kt, id kt.2 = kt.1) (tasks self).


(** The [Task(...)] calls of [_initialize_tasks]: the fields it names, the
    others at the defaults of the dataclass ([blockers] empty after
    [__post_init__], no retry yet, three retries at most). *)
Definition new_task (id name description : string) (priority : Priority)
  (status : TaskStatus) (sprint : Z) (owner : string)
  (estimated_hours actual_hours : Z) (dependencies acceptance_criteria : list string)
  : Task :=
  {| id := id; name := name; description := description; priority := priority;
     status := status; sprint := sprint; owner := owner;
     estimated_hours := estimated_hours; actual_hours := actual_hours;
     blockers := []; dependencies := dependencies;
     acceptance_criteria := acceptance_criteria;
     retry_count := 0; max_retries := 3 |}.

Definition sdui_engine : Task :=
  new_task "sdui_engine" "SDUI Engine Implementation"
    "Complete renderPage() implementation with data hydration"
    P0_CRITICAL IN_PROGRESS 1 "system" 16 12 []
    ["All 5 financial templates render correctly"; "Dynamic data binding works";
     "Error boundaries prevent crashes"; "Performance < 500ms"].

Definition agent_api_integration : Task :=
  new_task "agent_api_integration" "Agent API Integration"
    "Replace mock AgentOrchestrator with real agent APIs"
    P0_CRITICAL IN_PROGRESS 1 "system" 20 14 ["sdui_engine"]
    ["All 6 production agents integrated"; "Circuit breakers operational";
     "Audit logging active"; "WebSocket streaming tested"].

Definition security_hardening : Task :=
  new_task "security_hardening" "Security Hardening"
    "Implement OWASP Top 10 mitigations"
    P0_CRITICAL NOT_STARTED 2 "system" 24 0 []
    ["OWASP Top 10 mitigations applied"; "HashiCorp Vault integrated";
     "mTLS for service-to-service"; "Comprehensive audit logging";
     "Security scan passes"].

Definition database_migration : Task :=
  new_task "database_migration" "Database Migration & RLS"
    "Complete database setup with RLS policies"
    P0_CRITICAL COMPLETE 2 "system" 12 12 []
    ["18 tables created"; "RLS enabled on all tables"; "Migration scripts tested";
     "Multi-tenant isolation verified"].

Definition workflow_dag : Task :=
  new_task "workflow_dag" "Workflow DAG Implementation"
    "Complete multi-stage workflow with compensation"
    P1_HIGH COMPLETE 3 "system" 20 20 []
    ["All 6 workflow stages implemented"; "Retry logic operational";
     "Compensation working"; "State persistence verified"].

Definition multi_tenant_settings : Task :=
  new_task "multi_tenant_settings" "Multi-Tenant Settings"
    "Complete tenant isolation and provisioning"
    P1_HIGH IN_PROGRESS 3 "system" 16 10 ["database_migration"]
    ["Tenant isolation verified"; "Settings API operational";
     "Provisioning workflow complete"; "Usage tracking active";
     "Billing hooks ready"].

Definition comprehensive_testing : Task :=
  new_task "comprehensive_testing" "Comprehensive Testing Suite"
    "Achieve >90% test coverage"
    P1_HIGH NOT_STARTED 4 "system" 32 0
    ["sdui_engine"; "agent_api_integration"; "security_hardening"]
    ["Unit test coverage > 90%"; "Integration tests complete";
     "Security tests passed"; "Performance tests passed"].

Definition cicd_pipeline : Task :=
  new_task "cicd_pipeline" "CI/CD Pipeline Setup"
    "Complete deployment automation"
    P1_HIGH COMPLETE 4 "system" 16 16 []
    ["Build stage operational"; "Test stage operational";
     "Security scanning integrated"; "Deployment stages complete"].

(** [_initialize_tasks], and the orchestrator as [__init__] leaves it, no
    escalation written yet. *)
Definition _initialize_tasks : list (string * Task) :=
  [("sdui_engine", sdui_engine);
   ("agent_api_integration", agent_api_integration);
   ("security_hardening", security_hardening);
   ("database_migration", database_migration);
   ("workflow_dag", workflow_dag);
   ("multi_tenant_settings", multi_tenant_settings);
   ("comprehensive_testing", comprehensive_testing);
   ("cicd_pipeline", cicd_pipeline)].

Definition initial : Orchestrator :=
  {| tasks := _initialize_tasks; escalations := [] |}.



End Orchestrator.

(** * The integrity service

    blueprint/infra/backend/services/integrity/main.py.  The artifact is a
    dict the handler only passes on, so its type is left open. *)

Module Integrity.

Section Service.

Context {artifact : Type}.

Record IntegrityRequest : Type := {
  request_artifact : artifact;
  manifestoRules : list string
}.

Record IntegrityResponse : Type := {
  validatedArtifact : artifact;
  corrections : list string
}.

(** The outcome of the handler: the response, or the [HTTPException] with
    its status code and its detail, the text of the exception caught. *)
Inductive outcome : Type :=
  | Returned (response : IntegrityResponse)
  | HTTPError (status_code : nat) (detail : string).

(** Exceptions of the body: a global name that is not bound. *)
Inductive exn : Type := NameError (name : string).

(** [str(e)]. *)
Definition exn_str (e : exn) : string :=
  match e with
  | NameError name => "name '" +:+ name +:+ "' is not defined"
  end.

(** ASCII lower case, which is all [str.lower] does to the output of
    [json.dumps] (it escapes everything else). *)
Definition lower_ascii (c : Ascii.ascii) : Ascii.ascii :=
  let n := Ascii.nat_of_ascii c in
  if (65 <=? n)%nat && (n <=? 90)%nat then Ascii.ascii_of_nat (n + 32) else c.

Fixpoint lower (s : string) : string :=
  match s with
  | EmptyString => EmptyString
  | String c rest => String (lower_ascii c) (lower rest)
  end.

(** [needle in haystack]. *)
Fixpoint contains (needle haystack : string) : bool :=
  String.prefix needle haystack ||
  match haystack with
  | EmptyString => false
  | String _ rest => contains needle rest
  end.

(** [check_no_hype].  [json] stands for what the global name [json] is
    bound to when the function runs: the [dumps] of a module, or nothing. *)
Definition check_no_hype (json : option (artifact → string)) (a : artifact)
  : exn + list string :=
  match json with
  | None => inl (NameError "json")
  | Some dumps =>
      let description := lower (dumps a) in
      inr (if contains "guaranteed" description
           then ["Remove hype language: 'guaranteed'"]
           else [])
  end.

(** The module imports fastapi, pydantic, typing and jsonschema: the name
    [json] is bound to nothing. *)
Definition module_json : option (artifact → string) := None.

(** [rule_functions.get(rule)]. *)
Definition rule_functions (rule : string)
  : option (artifact → exn + list string) :=
  if decide (rule = "Quantify value credibly and conservatively")
  then Some (check_no_hype module_json)
  else None.

(** The loop over [manifestoRules], [issues] being what was collected so
    far. *)
Fixpoint collect_issues (rules : list string) (a : artifact) (issues : list string)
  : exn + list string :=
  match rules with
  | [] => inr issues
  | rule :: rest =>
      match rule_functions rule with
      | Some func =>
          match func a with
          | inl e => inl e
          | inr found => collect_issues rest a (issues ++ found)
          end
      | None => collect_issues rest a issues
      end
  end.

(** [process_integrity]. *)
Definition process_integrity (data : IntegrityRequest) : outcome :=
  match collect_issues (manifestoRules data) (request_artifact data) [] with
  | inr issues =>
      Returned {| validatedArtifact := request_artifact data; corrections := issues |}
  | inl e => HTTPError 500 (exn_str e)
  end.

End Service.

Arguments IntegrityRequest artifact : clear implicits.
Arguments IntegrityResponse artifact : clear implicits.
Arguments outcome artifact : clear implicits.

End Integrity.

(** * Properties *)

Section Grouping.

Context {num : Type} `{!PyNumber num}.

Implicit Types (telemetry : list (Telemetry num)) (ks : list string).

(** ** First-observed order *)

Lemma elem_of_first_observed ks k : k ∈ first_observed ks ↔ k ∈ ks.
Proof.
  induction ks as [|a ks IH]; simpl; [done|].
  rewrite !elem_of_cons, list_elem_of_filter, IH.
  destruct (decide (k = a)); naive_solver.
Qed.

Lemma NoDup_first_observed ks : NoDup (first_observed ks).
Proof.
  induction ks as [|a ks IH]; simpl; [constructor|].
  constructor.
  - rewrite list_elem_of_filter. naive_solver.
  - by apply NoDup_filter.
Qed.

Lemma first_observed_snoc ks k :
  first_observed (ks ++ [k]) =
  if decide (k ∈ ks) then first_observed ks else first_observed ks ++ [k].
Proof.
  induction ks as [|a ks IH]; simpl.
  - done.
  - rewrite IH. destruct (decide (k ∈ ks)) as [Hin|Hout].
    + rewrite decide_True by set_solver. done.
    + rewrite filter_app, filter_cons, filter_nil.
      destruct (decide (k = a)) as [->|Hne].
      * rewrite decide_False by naive_solver.
        rewrite decide_True by set_solver. by rewrite app_nil_r.
      * rewrite decide_True by done.
        rewrite decide_False by set_solver. done.
Qed.

(** Filtering keeps the relative order of what it keeps. *)
Lemma filter_lookup_order {A} (P : A → Prop) `{!∀ x, Decision (P x)}
    (l : list A) (i j : nat) (x y : A) :
  filter P l !! i = Some x → filter P l !! j = Some y → i < j →
  ∃ i' j', i' < j' ∧ l !! i' = Some x ∧ l !! j' = Some y.
Proof.
  revert i j. induction l as [|a l IH]; intros i j Hi Hj Hlt; [done|].
  rewrite filter_cons in Hi, Hj. destruct (decide (P a)) as [Ha|Ha].
  - destruct i as [|i]; destruct j as [|j]; try lia.
    + injection Hi as ->. cbn in Hj.
      apply list_elem_of_lookup_2, list_elem_of_filter in Hj as [_ Hy].
      apply list_elem_of_lookup in Hy as [j' Hj'].
      exists 0, (S j'). split; [lia|done].
    + cbn in Hi, Hj.
      destruct (IH i j Hi Hj) as (i' & j' & Hlt' & Hi' & Hj'); [lia|].
      exists (S i'), (S j'). split; [lia|done].
  - destruct (IH i j Hi Hj Hlt) as (i' & j' & Hlt' & Hi' & Hj').
    exists (S i'), (S j'). split; [lia|done].
Qed.

(** In [first_observed ks] a key stands before another exactly as their
    first occurrences do: the earlier key occurs in [ks] at a position
    before which the later key does not occur. *)
Lemma first_observed_order ks (i j : nat) (k1 k2 : string) :
  first_observed ks !! i = Some k1 → first_observed ks !! j = Some k2 → i < j →
  ∃ p : nat, ks !! p = Some k1 ∧ ∀ q : nat, (q ≤ p)%nat → ks !! q ≠ Some k2.
Proof.
  revert i j. induction ks as [|a ks IH]; intros i j Hi Hj Hlt; [done|].
  cbn [first_observed] in Hi, Hj.
  destruct j as [|j]; [lia|]. cbn in Hj.
  assert (k2 ≠ a) as Hne.
  { by apply list_elem_of_lookup_2, list_elem_of_filter in Hj as [? _]. }
  destruct i as [|i].
  - injection Hi as ->. exists 0. split; [done|].
    intros q Hq. replace q with 0 by lia. cbn. congruence.
  - cbn in Hi.
    destruct (filter_lookup_order _ _ _ _ _ _ Hi Hj) as (i' & j' & Hlt' & Hi' & Hj');
      [lia|].
    destruct (IH _ _ Hi' Hj' Hlt') as (p & Hp & Hbefore).
    exists (S p). split; [done|].
    intros [|q] Hq; cbn; [congruence|]. apply Hbefore. lia.
Qed.

(** ** The groups *)

Lemma group_values_snoc k telemetry t :
  group_values k (telemetry ++ [t]) =
  group_values k telemetry ++ (if decide (kpiId t = k) then [value t] else []).
Proof.
  unfold group_values. rewrite filter_app, fmap_app, filter_cons, filter_nil.
  by destruct (decide (kpiId t = k)).
Qed.

Lemma group_values_nil k telemetry :
  k ∉ kpiId <$> telemetry → group_values k telemetry = [].
Proof.
  intros Hk. unfold group_values.
  induction telemetry as [|t l IH]; [done|].
  rewrite fmap_cons, not_elem_of_cons in Hk. destruct Hk as [Hne Hk].
  rewrite filter_cons, decide_False by done. auto.
Qed.

Lemma group_values_nonempty k telemetry :
  k ∈ kpiId <$> telemetry → group_values k telemetry ≠ [].
Proof.
  intros Hk Hnil. apply list_elem_of_fmap in Hk as (t & -> & Ht).
  assert (value t ∈ group_values (kpiId t) telemetry) as Hv.
  { unfold group_values. apply list_elem_of_fmap. exists t. split; [done|].
    by apply list_elem_of_filter. }
  rewrite Hnil in Hv. by apply not_elem_of_nil in Hv.
Qed.

(** One [setdefault]/[append] step on a table laid out by a function of
    the key. *)
Lemma setdefault_append_tabulate (G : string → list num) ks k v :
  NoDup ks → (k ∉ ks → G k = []) →
  setdefault_append ((λ k', (k', G k')) <$> ks) k v =
  (λ k', (k', if decide (k' = k) then G k' ++ [v] else G k'))
    <$> (if decide (k ∈ ks) then ks else ks ++ [k]).
Proof.
  intros Hnd Hnew. induction ks as [|a ks IH]; csimpl.
  - rewrite decide_True by done. rewrite Hnew by set_solver. done.
  - apply NoDup_cons in Hnd as [Ha Hnd].
    destruct (decide (a = k)) as [->|Hne].
    + rewrite decide_True by set_solver. csimpl.
      rewrite decide_True by done. f_equal.
      apply list_fmap_ext. intros _ k' Hk'%list_elem_of_lookup_2.
      rewrite decide_False; [done|]. by intros ->.
    + rewrite IH; [|done|set_solver].
      destruct (decide (k ∈ ks)) as [Hin|Hout].
      * rewrite decide_True by set_solver. csimpl.
        by rewrite decide_False by done.
      * rewrite decide_False by set_solver. csimpl.
        by rewrite decide_False by done.
Qed.

(** The loop of lines 36-37 computes, for each KPI in first-observed
    order, the values of all its samples. *)
Lemma group_telemetry_spec telemetry :
  group_telemetry telemetry =
  (λ k, (k, group_values k telemetry)) <$> first_observed (kpiId <$> telemetry).
Proof.
  induction telemetry as [|t l IH] using rev_ind; [done|].
  unfold group_telemetry in *. rewrite foldl_snoc, IH.
  rewrite setdefault_append_tabulate.
  - rewrite fmap_app. simpl. rewrite first_observed_snoc.
    assert (∀ (k : string) (values : list num),
      (k, values ++ (if decide (kpiId t = k) then [value t] else [])) =
      (k, if decide (k = kpiId t) then values ++ [value t] else values)) as Hrow.
    { intros k values. destruct (decide (kpiId t = k)) as [<-|Hne].
      - by rewrite decide_True by done.
      - rewrite decide_False by done. by rewrite app_nil_r. }
    destruct (decide (kpiId t ∈ kpiId <$> l)) as [Hin|Hout].
    + rewrite decide_True by by apply elem_of_first_observed.
      apply list_fmap_ext. intros _ k _. by rewrite group_values_snoc, Hrow.
    + rewrite decide_False by by rewrite elem_of_first_observed.
      apply list_fmap_ext. intros _ k _. by rewrite group_values_snoc, Hrow.
  - apply NoDup_first_observed.
  - rewrite elem_of_first_observed. apply group_values_nil.
Qed.

End Grouping.

Section Handler.

Context {num : Type} `{!PyNumber num}.

#[local] Abbreviation pyval := (pyval num).
#[local] Abbreviation pydict := (gmap string pyval).

Implicit Types (targets : gmap string pydict) (ts : list pyval) (d : pydict)
  (data : RealizationRequest num) (r : KpiResult num).

(** ** The [targets] dict *)

Lemma build_targets_cons_inv t ts targets0 targets :
  build_targets (t :: ts) targets0 = Ok targets →
  ∃ d, t = PDict d ∧
    ((∃ k, d !! "kpiId" = Some (PStr k) ∧
           build_targets ts (<[k := d]> targets0) = Ok targets) ∨
     ((∀ k, d !! "kpiId" ≠ Some (PStr k)) ∧ build_targets ts targets0 = Ok targets)).
Proof.
  destruct t as [| | | | |d|]; try discriminate.
  cbn [build_targets]. intros Hb. exists d. split; [done|].
  destruct (d !! "kpiId") as [[| | |k| | |]|]; try discriminate.
  - right. split; [by intros|done].
  - right. split; [by intros|done].
  - right. split; [by intros|done].
  - left. by exists k.
  - right. split; [by intros|done].
Qed.

(** Entries under other keys leave the slot of [k] alone. *)
Lemma build_targets_unmatched ts targets0 targets k :
  build_targets ts targets0 = Ok targets →
  (∀ d, PDict d ∈ ts → d !! "kpiId" ≠ Some (PStr k)) →
  targets !! k = targets0 !! k.
Proof.
  revert targets0. induction ts as [|t ts IH]; intros targets0 Hb Hno.
  - by injection Hb as <-.
  - apply build_targets_cons_inv in Hb as (d & -> & [(k' & Hk' & Hb)|[_ Hb]]).
    + rewrite (IH _ Hb) by (intros d' Hd'; apply Hno; by right).
      apply lookup_insert_ne. intros ->. by apply (Hno d); [left|].
    + apply (IH _ Hb). intros d' Hd'. apply Hno. by right.
Qed.

(** A later entry for the same key replaces an earlier one. *)
Lemma build_targets_last l1 d l2 targets0 targets k :
  build_targets (l1 ++ PDict d :: l2) targets0 = Ok targets →
  d !! "kpiId" = Some (PStr k) →
  (∀ d', PDict d' ∈ l2 → d' !! "kpiId" ≠ Some (PStr k)) →
  targets !! k = Some d.
Proof.
  intros Hb Hk Hno. revert targets0 Hb.
  induction l1 as [|t l1 IH]; intros targets0 Hb.
  - apply build_targets_cons_inv in Hb as (d0 & [= <-] & [(k' & Hk' & Hb)|[Hk' _]]).
    + rewrite Hk in Hk'. injection Hk' as <-.
      rewrite (build_targets_unmatched _ _ _ _ Hb Hno). apply lookup_insert_eq.
    + by destruct (Hk' k).
  - rewrite <- app_comm_cons in Hb.
    apply build_targets_cons_inv in Hb as (d0 & _ & [(k' & _ & Hb)|[_ Hb]]);
      by apply (IH _ Hb).
Qed.

(** Whatever sits under [k] at the end was there at the start or is a
    target for [k] from the list. *)
Lemma build_targets_origin ts targets0 targets k d :
  build_targets ts targets0 = Ok targets → targets !! k = Some d →
  targets0 !! k = Some d ∨ (PDict d ∈ ts ∧ d !! "kpiId" = Some (PStr k)).
Proof.
  revert targets0. induction ts as [|t ts IH]; intros targets0 Hb Hd.
  - injection Hb as <-. by left.
  - apply build_targets_cons_inv in Hb as (d0 & -> & [(k' & Hk' & Hb)|[_ Hb]]).
    + destruct (IH _ Hb Hd) as [H0|[Hin Hk]].
      * rewrite lookup_insert in H0. case_decide as Heq.
        -- injection H0 as <-. subst k'. right. split; [by left|done].
        -- by left.
      * right. split; [by right|done].
    + destruct (IH _ Hb Hd) as [H0|[Hin Hk]]; [by left|].
      right. split; [by right|done].
Qed.

(** On a list of well-typed targets the comprehension succeeds, and every
    entry stored carries a numeric [targetValue]. *)
Lemma build_targets_typed ts targets0 :
  forallb is_KpiTarget ts = true →
  map_Forall (λ _ d, is_num (dict_get d "targetValue") = true) targets0 →
  ∃ targets, build_targets ts targets0 = Ok targets ∧
    map_Forall (λ _ d, is_num (dict_get d "targetValue") = true) targets.
Proof.
  revert targets0. induction ts as [|t ts IH]; intros targets0 Hts H0.
  - by exists targets0.
  - cbn [forallb] in Hts. apply andb_true_iff in Hts as [Ht Hts].
    destruct t as [| | | | |d|]; try discriminate.
    cbn [is_KpiTarget] in Ht.
    apply andb_true_iff in Ht as [Ht _]. apply andb_true_iff in Ht as [Hk Hx].
    cbn [build_targets]. unfold dict_get in Hk.
    destruct (d !! "kpiId") as [[| | |k| | |]|]; try discriminate.
    apply IH; [done|]. by apply map_Forall_insert_2.
Qed.

(** What holds of every dict in the list holds of every dict filed. *)
Lemma build_targets_Forall (P : pydict → Prop) ts targets0 targets :
  build_targets ts targets0 = Ok targets →
  (∀ d, PDict d ∈ ts → P d) →
  map_Forall (λ _ d, P d) targets0 →
  map_Forall (λ _ d, P d) targets.
Proof.
  revert targets0. induction ts as [|t ts IH]; intros targets0 Hb Hts H0.
  - by injection Hb as <-.
  - apply build_targets_cons_inv in Hb as (d & -> & [(k & Hk & Hb)|[_ Hb]]).
    + apply (IH _ Hb); [intros d' Hd'; apply Hts; by right|].
      apply map_Forall_insert_2; [|done]. apply Hts. by left.
    + apply (IH _ Hb); [|done]. intros d' Hd'. apply Hts. by right.
Qed.

(** ** The loop body *)

Lemma py_sum_sums_to (values : list num) : sums_to values (py_sum values).
Proof.
  induction values as [|x values IH] using rev_ind; [constructor|].
  unfold py_sum in *. rewrite foldl_snoc. by constructor.
Qed.

Lemma py_truediv_ok (x : num) (n : nat) (y : num) :
  py_truediv x n = Ok y ↔ n ≠ 0 ∧ y = div x (of_nat n).
Proof.
  unfold py_truediv. destruct (decide (n = 0)) as [->|Hn].
  - split; [discriminate|]. by intros [? _].
  - split; [by intros [= <-]|]. by intros [_ ->].
Qed.

Lemma kpi_result_inv targets k (values : list num) flag r flag' :
  kpi_result targets k values flag = Ok (r, flag') →
  values ≠ [] ∧
  result_kpiId r = k ∧
  result_actualValue r = arithmetic_mean values ∧
  result_targetValue r = dict_get (default ∅ (targets !! k)) "targetValue" ∧
  result_unit r = dict_get (default ∅ (targets !! k)) "unit" ∧
  match result_variance r with
  | None => result_targetValue r = PNone
  | Some variance =>
      result_targetValue r ≠ PNone ∧
      py_sub (result_actualValue r) (result_targetValue r) = Ok variance
  end ∧
  flag' = flag || under_target r.
Proof.
  unfold kpi_result.
  destruct (py_truediv (py_sum values) (length values)) as [actual|e] eqn:Hdiv;
    [|discriminate].
  apply py_truediv_ok in Hdiv as [Hlen ->]. cbn [mbind res_bind].
  assert (values ≠ []) as Hne by (by intros ->).
  destruct (dict_get (default ∅ (targets !! k)) "targetValue") as [|b|x|s|l|d|n] eqn:Ht.
  1: { intros [= <- <-]. cbn. rewrite orb_false_r. done. }
  all: cbn [py_sub mbind res_bind]; try discriminate.
  3: destruct (fits_float n) eqn:Hfits; cbn [mbind res_bind]; [|discriminate].
  all: intros [= <- <-]; unfold under_target; cbn.
  all: rewrite ?Hfits; repeat split; try done.
  all: by destruct (ltb _ zero), flag.
Qed.

(** The loop body never fails on a non-empty group whose target, if any,
    has a value that can be subtracted. *)
Lemma kpi_result_total targets k (values : list num) flag :
  values ≠ [] →
  map_Forall (λ _ d, subtractable (dict_get d "targetValue") = true) targets →
  ∃ r flag', kpi_result targets k values flag = Ok (r, flag').
Proof.
  intros Hne Htyped. unfold kpi_result, py_truediv.
  rewrite decide_False by (by destruct values).
  cbn [mbind res_bind].
  destruct (targets !! k) as [d|] eqn:Hk; cbn [from_option id].
  - apply Htyped in Hk. cbn beta in Hk.
    destruct (dict_get d "targetValue"); try discriminate.
    all: cbn in *; rewrite ?Hk; cbn; eauto.
  - unfold dict_get. rewrite lookup_empty. cbn. eauto.
Qed.

(** ** The loop *)

Lemma results_loop_inv targets items results flag results' flag' :
  results_loop targets items results flag = Ok (results', flag') →
  ∃ rows, results' = results ++ rows ∧
    Forall2 (emitted_for targets) items rows ∧
    flag' = flag || existsb under_target rows.
Proof.
  revert results flag. induction items as [|[k values] items IH];
    intros results flag Hloop.
  - injection Hloop as <- <-. exists []. rewrite app_nil_r, orb_false_r.
    repeat split. constructor.
  - cbn [results_loop] in Hloop.
    destruct (kpi_result targets k values flag) as [[r flag1]|e] eqn:Hbody;
      [|discriminate].
    cbn [mbind res_bind] in Hloop.
    apply IH in Hloop as (rows & -> & Hrows & ->).
    exists (r :: rows). rewrite <- app_assoc. split; [done|]. split.
    + constructor; [|done]. by exists flag, flag1.
    + apply kpi_result_inv in Hbody as (_ & _ & _ & _ & _ & _ & ->).
      cbn [existsb]. by rewrite orb_assoc.
Qed.

Lemma results_loop_total targets items results flag :
  Forall (λ item, item.2 ≠ []) items →
  map_Forall (λ _ d, subtractable (dict_get d "targetValue") = true) targets →
  ∃ results' flag', results_loop targets items results flag = Ok (results', flag').
Proof.
  intros Hitems Htyped. revert results flag.
  induction Hitems as [|[k values] items Hne _ IH]; intros results flag.
  - cbn. eauto.
  - cbn [results_loop].
    destruct (kpi_result_total targets k values flag Hne Htyped) as (r & flag1 & ->).
    cbn [mbind res_bind]. apply IH.
Qed.

(** ** The handler as a whole *)

Lemma process_realization_inv data resp :
  process_realization data = Response resp →
  ∃ ts targets,
    py_iter (dict_get_default (valueCommit data) "kpiTargets" (PList [])) = Ok ts ∧
    build_targets ts ∅ = Ok targets ∧
    Forall2 (emitted_for targets) (group_telemetry (telemetryData data))
      (report_results (realizationReport resp)) ∧
    renewalAlert resp =
      make_alert (existsb under_target (report_results (realizationReport resp))) ∧
    report_id (realizationReport resp) = "auto-generated" ∧
    report_valueCommitId (realizationReport resp) = dict_get (valueCommit data) "id" ∧
    report_generatedAt (realizationReport resp) = "2025-11-17T00:00:00Z".
Proof.
  unfold process_realization, realization_body.
  destruct (py_iter _) as [ts|e] eqn:Hiter; [|discriminate].
  cbn [mbind res_bind].
  destruct (build_targets ts ∅) as [targets|e] eqn:Hbuild; [|discriminate].
  cbn [mbind res_bind].
  destruct (results_loop _ _ _ _) as [[results flag]|e] eqn:Hloop; [|discriminate].
  cbn [mbind res_bind]. intros [= <-]. cbn.
  apply results_loop_inv in Hloop as (rows & -> & Hrows & ->).
  exists ts, targets. by repeat split.
Qed.

(** A list drawn by [for] holds a dict only if the value iterated is that
    very list. *)
Lemma py_iter_dict_elem (v : pyval) ts d :
  py_iter v = Ok ts → PDict d ∈ ts → v = PList ts.
Proof.
  destruct v as [| | |s|l|d0|]; try discriminate.
  - intros [= <-] Hin. apply list_elem_of_fmap in Hin as (c & Hc & _). discriminate.
  - by intros [= <-].
  - intros [= <-] Hin. apply list_elem_of_fmap in Hin as (c & Hc & _). discriminate.
Qed.

Lemma targets_unmatched data ts targets k :
  py_iter (dict_get_default (valueCommit data) "kpiTargets" (PList [])) = Ok ts →
  build_targets ts ∅ = Ok targets →
  ¬ has_target data k → targets !! k = None.
Proof.
  intros Hiter Hbuild Hno.
  rewrite (build_targets_unmatched _ _ _ k Hbuild); [apply lookup_empty|].
  intros d Hd Hk. apply Hno.
  apply (py_iter_dict_elem _ _ _ Hiter) in Hd as Hv.
  exists ts, d. split; [|done].
  unfold dict_get_default in Hv.
  destruct (valueCommit data !! "kpiTargets") as [v|]; cbn in Hv.
  - by rewrite Hv.
  - injection Hv as <-. by apply not_elem_of_nil in Hd.
Qed.

Lemma targets_matched data ts targets k d :
  py_iter (dict_get_default (valueCommit data) "kpiTargets" (PList [])) = Ok ts →
  build_targets ts ∅ = Ok targets →
  targets !! k = Some d → has_target data k.
Proof.
  intros Hiter Hbuild Hk.
  destruct (build_targets_origin _ _ _ _ _ Hbuild Hk) as [H0|[Hd Hkey]].
  { by rewrite lookup_empty in H0. }
  apply (py_iter_dict_elem _ _ _ Hiter) in Hd as Hv.
  exists ts, d. split; [|done].
  unfold dict_get_default in Hv.
  destruct (valueCommit data !! "kpiTargets") as [v|]; cbn in Hv.
  - by rewrite Hv.
  - injection Hv as <-. by apply not_elem_of_nil in Hd.
Qed.

(** Every result comes from the group of its own kpiId, and that group is
    made of all the samples of that KPI. *)
Lemma result_origin data resp r :
  process_realization data = Response resp →
  r ∈ report_results (realizationReport resp) →
  ∃ ts targets,
    py_iter (dict_get_default (valueCommit data) "kpiTargets" (PList [])) = Ok ts ∧
    build_targets ts ∅ = Ok targets ∧
    result_kpiId r ∈ kpiId <$> telemetryData data ∧
    emitted_for targets
      (result_kpiId r, group_values (result_kpiId r) (telemetryData data)) r.
Proof.
  intros (ts & targets & Hiter & Hbuild & Hrows & _)%process_realization_inv Hr.
  exists ts, targets. split; [done|]. split; [done|].
  apply list_elem_of_lookup in Hr as [i Hi].
  destruct (Forall2_lookup_r _ _ _ _ _ Hrows Hi) as ([k values] & Hitem & Hem).
  rewrite group_telemetry_spec in Hitem.
  apply list_lookup_fmap_Some in Hitem as (k' & [= -> ->] & Hk').
  assert (result_kpiId r = k') as ->.
  { destruct Hem as (flag & flag' & Hbody).
    by apply kpi_result_inv in Hbody as (_ & ? & _). }
  split; [|done].
  apply elem_of_first_observed. by apply list_elem_of_lookup_2 in Hk'.
Qed.

Lemma result_kpiIds data resp :
  process_realization data = Response resp →
  result_kpiId <$> report_results (realizationReport resp) =
  first_observed (kpiId <$> telemetryData data).
Proof.
  intros (ts & targets & _ & _ & Hrows & _)%process_realization_inv.
  rewrite group_telemetry_spec in Hrows.
  revert Hrows. generalize (report_results (realizationReport resp)).
  induction (first_observed (kpiId <$> telemetryData data)) as [|k ks IH];
    intros rows Hrows.
  - by apply Forall2_nil_inv_l in Hrows as ->.
  - rewrite fmap_cons in Hrows.
    apply Forall2_cons_inv_l in Hrows as (r & rows' & Hem & Hrows & ->).
    rewrite fmap_cons, (IH _ Hrows). f_equal.
    destruct Hem as (flag & flag' & Hbody).
    by apply kpi_result_inv in Hbody as (_ & ? & _).
Qed.

(** ** The alert dict *)

Lemma make_alert_status (flag : bool) :
  make_alert (num := num) flag !! "status" = Some (PStr (if flag then "risk" else "ok")).
Proof. by destruct flag. Qed.

Lemma make_alert_message (flag : bool) :
  make_alert (num := num) flag !! "message" = if flag then Some (PStr advisory) else None.
Proof. by destruct flag. Qed.

Lemma existsb_under_target (rows : list (KpiResult num)) :
  existsb under_target rows = true ↔
  ∃ r variance, r ∈ rows ∧ result_variance r = Some variance ∧
    ltb variance zero = true.
Proof.
  rewrite existsb_exists. split.
  - intros (r & Hr%list_elem_of_In & Hu). unfold under_target in Hu.
    destruct (result_variance r) as [variance|] eqn:Hv; [|discriminate]. eauto.
  - intros (r & variance & Hr%list_elem_of_In & Hv & Hlt).
    exists r. split; [done|]. unfold under_target. by rewrite Hv.
Qed.

Lemma alert_of_results data resp :
  process_realization data = Response resp →
  renewalAlert resp =
  make_alert (existsb under_target (report_results (realizationReport resp))).
Proof. by intros (_ & _ & _ & _ & _ & ? & _)%process_realization_inv. Qed.

Lemma risk_status_inv (flag : bool) :
  make_alert (num := num) flag !! "status" = Some (PStr "risk") → flag = true.
Proof. by destruct flag. Qed.

End Handler.

(** * The claims *)

Section Claims.

Context {num : Type} `{!PyNumber num}.

Implicit Types (data : RealizationRequest num) (resp : RealizationReport num)
  (r : KpiResult num).

(** C1. The alert's status is "risk" exactly when some emitted result has a
    variance below zero; the status is always one of "risk" and "ok"; a
    "risk" alert carries the fixed advisory message and an "ok" alert has no
    message key. *)
Theorem alert_status_iff_negative_variance data resp :
  process_realization data = Response resp →
  (renewalAlert resp !! "status" = Some (PStr "risk") ↔
     ∃ r variance, r ∈ report_results (realizationReport resp) ∧
       result_variance r = Some variance ∧ ltb variance zero = true) ∧
  (renewalAlert resp !! "status" = Some (PStr "risk") ∨
   renewalAlert resp !! "status" = Some (PStr "ok")) ∧
  (renewalAlert resp !! "status" = Some (PStr "risk") →
     renewalAlert resp !! "message" = Some (PStr advisory)) ∧
  (renewalAlert resp !! "status" = Some (PStr "ok") →
     renewalAlert resp !! "message" = None).
Proof.
  intros Halert%alert_of_results.
  rewrite Halert, make_alert_status, make_alert_message.
  rewrite <- existsb_under_target.
  destruct (existsb under_target _); repeat split; try done; eauto.
Qed.

(** C2. Every KPI seen in the telemetry has a result, and the actual value
    of every result is the arithmetic mean of the samples carrying its
    kpiId: the total of their values, each sample taken once in the order
    of the telemetry, duplicates included, starting from 0, divided by
    their number.  For a KPI with a single sample this is (0 + v) / 1,
    which equals (Python's [==]) the sample's value v when v is finite. *)
Theorem actual_value_is_group_mean data resp :
  process_realization data = Response resp →
  (∀ k, k ∈ kpiId <$> telemetryData data →
     ∃ r, r ∈ report_results (realizationReport resp) ∧ result_kpiId r = k) ∧
  (∀ r, r ∈ report_results (realizationReport resp) →
     let samples := filter (λ t, kpiId t = result_kpiId r) (telemetryData data) in
     samples ≠ [] ∧
     (∃ total, sums_to (value <$> samples) total ∧
        result_actualValue r = div total (of_nat (length samples))) ∧
     ∀ t, samples = [t] →
          result_actualValue r = div (add zero (value t)) (of_nat 1) ∧
          ∀ E : PyNumberEq num,
            finite (value t) → num_eq (result_actualValue r) (value t)).
Proof.
  intros Hrun. split.
  - intros k Hk. apply elem_of_first_observed in Hk.
    rewrite <- (result_kpiIds _ _ Hrun) in Hk.
    apply list_elem_of_fmap in Hk as (r & -> & Hr). by exists r.
  - intros r Hr samples.
    destruct (result_origin _ _ _ Hrun Hr)
      as (ts & targets & _ & _ & Hobs & flag & flag' & Hbody).
    apply kpi_result_inv in Hbody as (Hne & _ & Hmean & _).
    unfold arithmetic_mean, group_values in Hne, Hmean.
    fold samples in Hne, Hmean. cbn [snd] in Hne, Hmean.
    split; [by intros Hnil; rewrite Hnil in Hne|].
    split.
    { exists (py_sum (value <$> samples)). split; [apply py_sum_sums_to|].
      by rewrite Hmean, length_fmap. }
    intros t Hone. rewrite Hmean, Hone. cbn.
    split; [done|]. intros E Hfin.
    destruct (add_zero_eq (value t) Hfin) as [Hfin' Hadd].
    eapply num_eq_trans; [apply div_one_eq, Hfin'|exact Hadd].
Qed.

(** C3. A result whose kpiId has no target in the commit has variance,
    targetValue and unit all [None]; and whenever the alert is "risk", some
    result whose kpiId does have a target has a variance below zero, so an
    unmatched result never raises the alert. *)
Theorem unmatched_result_is_blank data resp :
  process_realization data = Response resp →
  (∀ r, r ∈ report_results (realizationReport resp) →
        ¬ has_target data (result_kpiId r) →
        result_variance r = None ∧ result_targetValue r = PNone ∧
        result_unit r = PNone ∧ under_target r = false) ∧
  (renewalAlert resp !! "status" = Some (PStr "risk") →
     ∃ r variance, r ∈ report_results (realizationReport resp) ∧
       has_target data (result_kpiId r) ∧
       result_variance r = Some variance ∧ ltb variance zero = true).
Proof.
  intros Hrun. split.
  - intros r Hr Hno.
    destruct (result_origin _ _ _ Hrun Hr)
      as (ts & targets & Hiter & Hbuild & _ & flag & flag' & Hbody).
    apply kpi_result_inv in Hbody as (_ & _ & _ & Ht & Hu & Hv & _).
    cbn [fst] in Ht, Hu.
    rewrite (targets_unmatched _ _ _ _ Hiter Hbuild Hno) in Ht, Hu.
    unfold dict_get in Ht, Hu. cbn in Ht, Hu. rewrite lookup_empty in Ht, Hu.
    unfold under_target.
    destruct (result_variance r) as [variance|]; [|done].
    by destruct Hv as [Hv _].
  - intros Hrisk.
    rewrite (alert_of_results _ _ Hrun) in Hrisk.
    apply risk_status_inv, existsb_under_target in Hrisk
      as (r & variance & Hr & Hv & Hlt).
    exists r, variance. repeat split; try done.
    destruct (result_origin _ _ _ Hrun Hr)
      as (ts & targets & Hiter & Hbuild & _ & flag & flag' & Hbody).
    apply kpi_result_inv in Hbody as (_ & _ & _ & Ht & _ & Hv' & _).
    rewrite Hv in Hv'. destruct Hv' as [Hsome _]. cbn [fst] in Ht.
    destruct (targets !! result_kpiId r) as [d|] eqn:Hd.
    + by apply (targets_matched _ _ _ _ _ Hiter Hbuild Hd).
    + unfold dict_get in Ht. cbn in Ht. by rewrite lookup_empty in Ht.
Qed.

(** C5. The kpiId of every result occurs among the kpiIds of the telemetry
    samples; a KPI without a sample, with or without a target, has no
    result. *)
Theorem results_only_for_observed_kpis data resp :
  process_realization data = Response resp →
  (∀ r, r ∈ report_results (realizationReport resp) →
        result_kpiId r ∈ kpiId <$> telemetryData data) ∧
  (∀ k, k ∉ kpiId <$> telemetryData data →
        ∀ r, r ∈ report_results (realizationReport resp) → result_kpiId r ≠ k).
Proof.
  intros Hrun.
  assert (∀ r, r ∈ report_results (realizationReport resp) →
               result_kpiId r ∈ kpiId <$> telemetryData data) as Hobs.
  { intros r Hr. by destruct (result_origin _ _ _ Hrun Hr) as (_ & _ & _ & _ & ? & _). }
  split; [done|]. intros k Hk r Hr <-. by apply Hk, Hobs.
Qed.

(** C6 (as amended). On a well-typed value commit whose integer target
    values convert to a float the handler returns a response: no group is
    empty, so the division of the mean has a non-zero divisor, and the 500
    branch is not taken. *)
Theorem total_on_well_typed_input data :
  is_ValueCommit (valueCommit data) = true →
  targets_representable (valueCommit data) = true →
  (∀ k values, (k, values) ∈ group_telemetry (telemetryData data) →
     length values ≠ 0 ∧
     py_truediv (py_sum values) (length values) = Ok (arithmetic_mean values)) ∧
  (∃ resp, process_realization data = Response resp) ∧
  (∀ status e, process_realization data ≠ HTTPException status e).
Proof.
  intros Hvc Hrep.
  assert (Forall (λ item : string * list num, item.2 ≠ [])
            (group_telemetry (telemetryData data))) as Hgroups.
  { rewrite group_telemetry_spec. apply Forall_fmap, Forall_forall.
    intros k Hk. rewrite elem_of_first_observed in Hk. cbn.
    by apply group_values_nonempty. }
  assert (∃ resp, realization_body data = Ok resp) as [resp Hbody].
  { unfold is_ValueCommit in Hvc. apply andb_true_iff in Hvc as [_ Hts].
    unfold targets_representable in Hrep.
    unfold realization_body, dict_get_default. unfold dict_get in Hts, Hrep.
    destruct (valueCommit data !! "kpiTargets") as [[| | | |ts| |]|];
      try discriminate.
    cbn [from_option id py_iter mbind res_bind] in *.
    destruct (build_targets_typed ts ∅ Hts) as (targets & Hbuild & _).
    { apply map_Forall_empty. }
    rewrite Hbuild. cbn [mbind res_bind].
    assert (map_Forall (λ _ d, subtractable (dict_get d "targetValue") = true)
              targets) as Hsub.
    { apply (build_targets_Forall _ ts ∅ targets Hbuild);
        [|apply map_Forall_empty].
      intros d Hd. rewrite forallb_forall in Hts, Hrep.
      apply list_elem_of_In in Hd.
      specialize (Hts _ Hd). specialize (Hrep _ Hd). cbn in Hts, Hrep.
      apply andb_true_iff in Hts as [Hts _].
      apply andb_true_iff in Hts as [_ Hx].
      fold (dict_get d "targetValue") in Hrep.
      by destruct (dict_get d "targetValue"). }
    destruct (results_loop_total targets _ [] false Hgroups Hsub)
      as (results & flag & ->).
    cbn [mbind res_bind]. eauto. }
  split; [|split].
  - intros k values Hin.
    rewrite Forall_forall in Hgroups. specialize (Hgroups _ Hin). cbn in Hgroups.
    assert (length values ≠ 0) as Hlen by (by destruct values).
    split; [done|]. by apply py_truediv_ok.
  - exists resp. unfold process_realization. by rewrite Hbody.
  - intros status e. unfold process_realization. by rewrite Hbody.
Qed.

(** C7. The kpiIds of the results are the distinct kpiIds of the
    telemetry, each once, in the order of their first samples: a result
    stands before another only if its KPI has a sample that arrives before
    every sample of the other's KPI. *)
Theorem one_result_per_kpi_in_first_observed_order data resp :
  process_realization data = Response resp →
  result_kpiId <$> report_results (realizationReport resp) =
    first_observed (kpiId <$> telemetryData data) ∧
  NoDup (result_kpiId <$> report_results (realizationReport resp)) ∧
  (∀ k, k ∈ result_kpiId <$> report_results (realizationReport resp) ↔
        k ∈ kpiId <$> telemetryData data) ∧
  (∀ (i j : nat) ri rj,
     report_results (realizationReport resp) !! i = Some ri →
     report_results (realizationReport resp) !! j = Some rj →
     i < j →
     ∃ (p : nat) t, telemetryData data !! p = Some t ∧ kpiId t = result_kpiId ri ∧
       ∀ (q : nat) t', (q ≤ p)%nat → telemetryData data !! q = Some t' →
               kpiId t' ≠ result_kpiId rj).
Proof.
  intros Hids%result_kpiIds. split; [done|]. split; [|split].
  - rewrite Hids. apply NoDup_first_observed.
  - intros k. rewrite Hids. apply elem_of_first_observed.
  - intros i j ri rj Hi Hj Hlt.
    assert (first_observed (kpiId <$> telemetryData data) !! i = Some (result_kpiId ri))
      as Hi' by (by rewrite <- Hids, list_lookup_fmap, Hi).
    assert (first_observed (kpiId <$> telemetryData data) !! j = Some (result_kpiId rj))
      as Hj' by (by rewrite <- Hids, list_lookup_fmap, Hj).
    destruct (first_observed_order _ _ _ _ _ Hi' Hj' Hlt) as (p & Hp & Hbefore).
    apply list_lookup_fmap_Some in Hp as (t & Ht & Hp).
    exists p, t. split; [done|]. split; [done|].
    intros q t' Hq Ht' Heq. apply (Hbefore q Hq).
    by rewrite list_lookup_fmap, Ht', <- Heq.
Qed.

(** C8. With no telemetry the report has no result and the alert is the
    plain "ok" dict, whatever targets the commit holds; and the handler does
    return on every well-typed commit. *)
Theorem empty_telemetry_gives_empty_ok data :
  telemetryData data = [] →
  (∀ resp, process_realization data = Response resp →
     report_results (realizationReport resp) = [] ∧
     renewalAlert resp = {["status" := PStr "ok"]}) ∧
  (is_ValueCommit (valueCommit data) = true →
   ∃ resp, process_realization data = Response resp ∧
     report_results (realizationReport resp) = [] ∧
     renewalAlert resp = {["status" := PStr "ok"]}).
Proof.
  intros Hempty.
  assert (∀ resp, process_realization data = Response resp →
     report_results (realizationReport resp) = [] ∧
     renewalAlert resp = {["status" := PStr "ok"]}) as Hshape.
  { intros resp Hrun.
    apply process_realization_inv in Hrun as (ts & targets & _ & _ & Hrows & Halert & _).
    rewrite Hempty in Hrows. apply Forall2_nil_inv_l in Hrows.
    rewrite Halert, Hrows. done. }
  split; [done|]. intros Hvc.
  assert (∃ resp, realization_body data = Ok resp) as [resp Hbody].
  { unfold is_ValueCommit in Hvc. apply andb_true_iff in Hvc as [_ Hts].
    unfold realization_body, dict_get_default. unfold dict_get in Hts.
    destruct (valueCommit data !! "kpiTargets") as [[| | | |ts| |]|];
      try discriminate.
    cbn [from_option id py_iter mbind res_bind] in *.
    destruct (build_targets_typed ts ∅ Hts) as (targets & -> & _).
    { apply map_Forall_empty. }
    rewrite Hempty. cbn. eauto. }
  exists resp.
  assert (process_realization data = Response resp) as Hrun.
  { unfold process_realization. by rewrite Hbody. }
  split; [done|]. by apply Hshape.
Qed.

(** C9. Whatever the input and whenever the call, the report's [id] is
    "auto-generated" and its [generatedAt] is "2025-11-17T00:00:00Z". *)
Theorem report_id_and_generatedAt_constant (now : string) data resp :
  process_realization_at now data = Response resp →
  report_id (realizationReport resp) = "auto-generated" ∧
  report_generatedAt (realizationReport resp) = "2025-11-17T00:00:00Z".
Proof.
  unfold process_realization_at.
  by intros (_ & _ & _ & _ & _ & _ & ? & _ & ?)%process_realization_inv.
Qed.

(** C10. When several entries of [kpiTargets] carry the same kpiId, the
    last of them is the one looked up: the results for that kpiId carry its
    [targetValue] and [unit]. *)
Theorem last_duplicate_target_wins data resp
    (l1 l2 : list (pyval num)) (d : gmap string (pyval num)) (k : string) r :
  valueCommit data !! "kpiTargets" = Some (PList (l1 ++ PDict d :: l2)) →
  d !! "kpiId" = Some (PStr k) →
  (∀ d', PDict d' ∈ l2 → d' !! "kpiId" ≠ Some (PStr k)) →
  process_realization data = Response resp →
  r ∈ report_results (realizationReport resp) →
  result_kpiId r = k →
  result_targetValue r = dict_get d "targetValue" ∧
  result_unit r = dict_get d "unit".
Proof.
  intros Hvc Hk Hlast Hrun Hr Hid.
  destruct (result_origin _ _ _ Hrun Hr)
    as (ts & targets & Hiter & Hbuild & _ & flag & flag' & Hbody).
  apply kpi_result_inv in Hbody as (_ & _ & _ & Ht & Hu & _).
  unfold dict_get_default in Hiter. rewrite Hvc in Hiter.
  injection Hiter as <-.
  cbn [fst] in Ht, Hu. rewrite Hid in Ht, Hu.
  by rewrite (build_targets_last _ _ _ _ _ _ Hbuild Hk Hlast) in Ht, Hu.
Qed.

End Claims.

(** * The handler on the sample requests *)

Module Runs.
Import QNum Samples.

Lemma Q_add_zero_l (x : Q) : Qplus 0 x = x.
Proof.
  destruct x as [n d]. unfold Qplus. simpl.
  f_equal. lia.
Qed.

Lemma Q_div_one_r (x : Q) : Qdiv x (inject_Z (Z.of_nat 1)) = x.
Proof.
  destruct x as [n d]. unfold Qdiv, Qmult, Qinv. simpl.
  f_equal; lia.
Qed.

(** Equality of rationals is [Qeq]; every rational is finite. *)
Lemma Q_number_eq : PyNumberEq Q.
Proof.
  refine {| num_eq := Qeq; finite := λ _, True |}.
  - intros x y z. apply Qeq_trans.
  - intros x _. split; [exact I|]. cbn. by rewrite Q_add_zero_l.
  - intros x _. cbn. by rewrite Q_div_one_r.
Defined.

(** The two scenarios of the specification, and the others. *)

Example run_on_target : process_realization on_target = Response on_target_response.
Proof. vm_compute. reflexivity. Qed.

Example run_below_target :
  process_realization below_target = Response below_target_response.
Proof. vm_compute. reflexivity. Qed.

Example run_mixed : process_realization mixed = Response mixed_response.
Proof. vm_compute. reflexivity. Qed.

Example run_duplicated_target :
  process_realization duplicated_target = Response duplicated_target_response.
Proof. vm_compute. reflexivity. Qed.

Example run_no_telemetry :
  process_realization no_telemetry = Response no_telemetry_response.
Proof. vm_compute. reflexivity. Qed.

(** Ill-typed commits end in the 500 branch. *)

Example run_targets_not_iterable :
  process_realization
    {| valueCommit := {["kpiTargets" := PNum 3%Q]}; telemetryData := [] |}
  = HTTPException 500 TypeError.
Proof. vm_compute. reflexivity. Qed.

Example run_target_without_kpiId :
  process_realization
    {| valueCommit := {["kpiTargets" := PList [PDict {["unit" := PStr "usd"]}]]};
       telemetryData := [] |}
  = HTTPException 500 (KeyError "kpiId").
Proof. vm_compute. reflexivity. Qed.

Example run_target_value_string :
  process_realization
    {| valueCommit :=
         {["kpiTargets" :=
             PList [PDict (<["kpiId" := PStr "nps"]> {["targetValue" := PStr "40"]})]]};
       telemetryData := [sample "nps" 41] |}
  = HTTPException 500 TypeError.
Proof. vm_compute. reflexivity. Qed.

End Runs.

(** * The claims on the sample requests *)

Import QNum Samples MoreSamples.

(** C1 on the request below target: the one result has variance -20000,
    the alert is "risk" and carries the advisory. *)
Lemma alert_status_iff_negative_variance_witness :
  process_realization below_target = Response below_target_response ∧
  (∃ r variance, r ∈ report_results (realizationReport below_target_response) ∧
     result_variance r = Some variance ∧ ltb variance zero = true) ∧
  renewalAlert below_target_response !! "message" = Some (PStr advisory).
Proof.
  assert (process_realization below_target = Response below_target_response)
    as Hrun by (vm_compute; reflexivity).
  destruct (alert_status_iff_negative_variance below_target below_target_response Hrun)
    as (Hiff & _ & Hmsg & _).
  split; [exact Hrun|]. split.
  - apply Hiff. vm_compute. reflexivity.
  - apply Hmsg. vm_compute. reflexivity.
Defined.

(** C2 on the request on target, whose two samples of 10 and 20 give the
    actual value (0 + 10 + 20) / 2, and on the request below target, whose
    single sample of 30000 is the actual value. *)
Lemma actual_value_is_group_mean_witness :
  (process_realization on_target = Response on_target_response ∧
   ∀ r, r ∈ report_results (realizationReport on_target_response) →
     ∃ total, sums_to [10%Q; 20%Q] total ∧
              result_actualValue r = Qdiv total (inject_Z 2)) ∧
  (process_realization below_target = Response below_target_response ∧
   below_target_row ∈ report_results (realizationReport below_target_response) ∧
   (result_actualValue below_target_row == value (sample "revenue" 30000))%Q).
Proof.
  split.
  - assert (process_realization on_target = Response on_target_response)
      as Hrun by (vm_compute; reflexivity).
    split; [exact Hrun|]. intros r Hr.
    destruct (actual_value_is_group_mean on_target on_target_response Hrun)
      as [_ Hmean].
    destruct (Hmean r Hr) as (_ & Hsum & _).
    apply list_elem_of_singleton in Hr. subst r. exact Hsum.
  - assert (process_realization below_target = Response below_target_response)
      as Hrun by (vm_compute; reflexivity).
    assert (below_target_row ∈ report_results (realizationReport below_target_response))
      as Hin by (apply list_elem_of_here).
    split; [exact Hrun|]. split; [exact Hin|].
    destruct (actual_value_is_group_mean below_target below_target_response Hrun)
      as [_ Hmean].
    destruct (Hmean below_target_row Hin) as (_ & _ & Hone).
    destruct (Hone (sample "revenue" 30000) eq_refl) as [_ Heq].
    exact (Heq Runs.Q_number_eq I).
Defined.

(** C3 on the mixed request: "latency" has no target and its result is
    blank, although the alert is "risk". *)
Lemma unmatched_result_is_blank_witness :
  process_realization mixed = Response mixed_response ∧
  ¬ has_target mixed "latency" ∧
  result_variance latency_row = None ∧ result_targetValue latency_row = PNone ∧
  result_unit latency_row = PNone ∧ under_target latency_row = false.
Proof.
  assert (process_realization mixed = Response mixed_response)
    as Hrun by (vm_compute; reflexivity).
  assert (¬ has_target mixed "latency") as Hno.
  { intros (ts & d & Hts & Hd & Hk). vm_compute in Hts. injection Hts as <-.
    apply elem_of_cons in Hd as [Hd|Hd].
    { injection Hd as ->. vm_compute in Hk. discriminate. }
    apply elem_of_cons in Hd as [Hd|Hd].
    { injection Hd as ->. vm_compute in Hk. discriminate. }
    by apply not_elem_of_nil in Hd. }
  split; [exact Hrun|]. split; [exact Hno|].
  destruct (unmatched_result_is_blank mixed mixed_response Hrun) as [Hblank _].
  apply (Hblank latency_row); [apply list_elem_of_here | exact Hno].
Defined.

(** C5 on the mixed request: "nps" has a target and no sample, and no
    result. *)
Lemma results_only_for_observed_kpis_witness :
  process_realization mixed = Response mixed_response ∧
  has_target mixed "nps" ∧
  ∀ r, r ∈ report_results (realizationReport mixed_response) →
       result_kpiId r ∈ kpiId <$> telemetryData mixed ∧ result_kpiId r ≠ "nps".
Proof.
  assert (process_realization mixed = Response mixed_response)
    as Hrun by (vm_compute; reflexivity).
  split; [exact Hrun|]. split.
  { exists [target "revenue" 50000 "usd"; target "nps" 40 "points"],
      (target_dict "nps" 40 "points").
    split; [vm_compute; reflexivity|]. split; [|vm_compute; reflexivity].
    apply list_elem_of_further, list_elem_of_here. }
  destruct (results_only_for_observed_kpis mixed mixed_response Hrun) as [Hobs Hnone].
  intros r Hr. split; [by apply Hobs|]. apply Hnone; [|done].
  intros Hin. vm_compute in Hin.
  repeat (apply elem_of_cons in Hin as [Hin|Hin]; [discriminate|]).
  by apply not_elem_of_nil in Hin.
Defined.

(** C6 as stated fails: a commit of correct types whose target is the
    integer 2^1024 is answered with a 500, the subtraction of line 46
    having raised [OverflowError]. *)
Lemma huge_integer_target_fails :
  is_ValueCommit (valueCommit huge_target) = true ∧
  process_realization huge_target = HTTPException 500 OverflowError ∧
  ¬ ∃ resp, process_realization huge_target = Response resp.
Proof.
  split; [vm_compute; reflexivity|].
  assert (process_realization huge_target = HTTPException 500 OverflowError)
    as Hrun by (vm_compute; reflexivity).
  split; [exact Hrun|]. intros [resp Hresp]. rewrite Hrun in Hresp. discriminate.
Qed.

(** C6 as amended, on the first scenario with its target written as the
    integer 15. *)
Lemma total_on_well_typed_input_witness :
  is_ValueCommit (valueCommit on_target_int) = true ∧
  targets_representable (valueCommit on_target_int) = true ∧
  process_realization on_target_int = Response on_target_int_response ∧
  ∃ resp, process_realization on_target_int = Response resp.
Proof.
  assert (is_ValueCommit (valueCommit on_target_int) = true) as Hvc
    by (vm_compute; reflexivity).
  assert (targets_representable (valueCommit on_target_int) = true) as Hrep
    by (vm_compute; reflexivity).
  split; [exact Hvc|]. split; [exact Hrep|].
  split; [vm_compute; reflexivity|].
  by destruct (total_on_well_typed_input on_target_int Hvc Hrep) as (_ & ? & _).
Defined.

(** C7 on the mixed request: "latency" was seen first. *)
Lemma one_result_per_kpi_in_first_observed_order_witness :
  process_realization mixed = Response mixed_response ∧
  result_kpiId <$> report_results (realizationReport mixed_response) =
    ["latency"; "revenue"].
Proof.
  assert (process_realization mixed = Response mixed_response)
    as Hrun by (vm_compute; reflexivity).
  split; [exact Hrun|].
  destruct (one_result_per_kpi_in_first_observed_order mixed mixed_response Hrun)
    as [Hids _].
  rewrite Hids. vm_compute. reflexivity.
Defined.

(** C8 on a commit with two targets. *)
Lemma empty_telemetry_gives_empty_ok_witness :
  telemetryData no_telemetry = [] ∧
  is_ValueCommit (valueCommit no_telemetry) = true ∧
  ∃ resp, process_realization no_telemetry = Response resp ∧
    report_results (realizationReport resp) = [] ∧
    renewalAlert resp = {["status" := PStr "ok"]}.
Proof.
  assert (telemetryData no_telemetry = []) as Hempty by reflexivity.
  assert (is_ValueCommit (valueCommit no_telemetry) = true) as Hvc
    by (vm_compute; reflexivity).
  split; [exact Hempty|]. split; [exact Hvc|].
  destruct (empty_telemetry_gives_empty_ok no_telemetry Hempty) as [_ Hret].
  exact (Hret Hvc).
Defined.

(** C9 on a call made on 1 January 2026. *)
Lemma report_id_and_generatedAt_constant_witness :
  process_realization_at "2026-01-01T09:00:00Z" on_target = Response on_target_response ∧
  report_id (realizationReport on_target_response) = "auto-generated" ∧
  report_generatedAt (realizationReport on_target_response) = "2025-11-17T00:00:00Z".
Proof.
  assert (process_realization_at "2026-01-01T09:00:00Z" on_target =
            Response on_target_response) as Hrun by (vm_compute; reflexivity).
  split; [exact Hrun|].
  exact (report_id_and_generatedAt_constant _ on_target on_target_response Hrun).
Defined.

(** C10 on a commit with two targets for "revenue": the second one, 10 eur,
    is reported. *)
Lemma last_duplicate_target_wins_witness :
  process_realization duplicated_target = Response duplicated_target_response ∧
  result_targetValue duplicated_target_row = PNum 10%Q ∧
  result_unit duplicated_target_row = PStr "eur".
Proof.
  assert (process_realization duplicated_target = Response duplicated_target_response)
    as Hrun by (vm_compute; reflexivity).
  split; [exact Hrun|].
  apply (last_duplicate_target_wins duplicated_target duplicated_target_response
           [target "revenue" 50000 "usd"] [] (target_dict "revenue" 10 "eur")
           "revenue" duplicated_target_row).
  - vm_compute. reflexivity.
  - vm_compute. reflexivity.
  - intros d' Hd'. by apply not_elem_of_nil in Hd'.
  - exact Hrun.
  - apply list_elem_of_here.
  - reflexivity.
Defined.

(** * The handler against its reference description *)

Section ReferenceFacts.

Context {num : Type} `{!PyNumber num}.

#[local] Abbreviation pyval := (pyval num).
#[local] Abbreviation pydict := (gmap string pyval).

Implicit Types (targets : gmap string pydict) (ts : list pyval) (d : pydict)
  (data : RealizationRequest num) (r : KpiResult num) (k : string).

(** ** The comprehension *)

Lemma build_targets_lookup ts targets0 targets k :
  build_targets ts targets0 = Ok targets →
  targets !! k =
  match last_target ts k with Some d => Some d | None => targets0 !! k end.
Proof.
  revert targets0. induction ts as [|t ts IH]; intros targets0 Hb.
  - by injection Hb as <-.
  - apply build_targets_cons_inv in Hb as (d & -> & [(k' & Hk' & Hb)|[Hk' Hb]]).
    + rewrite (IH _ Hb). cbn [last_target target_for].
      destruct (last_target ts k); [done|]. rewrite Hk'.
      destruct (decide (k' = k)) as [->|Hne].
      * apply lookup_insert_eq.
      * by apply lookup_insert_ne.
    + rewrite (IH _ Hb). cbn [last_target target_for].
      destruct (last_target ts k); [done|].
      destruct (d !! "kpiId") as [[| | |k'| | |]|]; try done.
      by destruct (Hk' k').
Qed.

Lemma build_targets_ok_iff ts targets0 :
  (∃ targets, build_targets ts targets0 = Ok targets) ↔ forallb keyed ts = true.
Proof.
  revert targets0. induction ts as [|t ts IH]; intros targets0.
  - split; [done|]. by exists targets0.
  - cbn [forallb build_targets]. rewrite andb_true_iff.
    destruct t as [| | | | |d|]; cbn [keyed];
      try (split; [by intros [? ?]|by intros [? _]]).
    destruct (d !! "kpiId") as [[| | |k'| | |]|];
      try (split; [by intros [? ?]|by intros [? _]]);
      rewrite IH; naive_solver.
Qed.

(** ** The loop *)

Lemma kpi_result_expected targets k (values : list num) flag :
  values ≠ [] →
  subtractable (dict_get (default ∅ (targets !! k)) "targetValue") = true →
  kpi_result targets k values flag =
  Ok (expected_result k values (default ∅ (targets !! k)),
      flag || under_target (expected_result k values (default ∅ (targets !! k)))).
Proof.
  intros Hne Hsub. unfold kpi_result, py_truediv, expected_result, under_target.
  rewrite decide_False by (by destruct values).
  cbn [mbind res_bind]. cbv zeta. fold (arithmetic_mean values).
  destruct (dict_get (default ∅ (targets !! k)) "targetValue") as [|b|x| | | |n];
    try discriminate; cbn.
  - by rewrite orb_false_r.
  - by destruct (ltb _ zero), flag.
  - by destruct (ltb _ zero), flag.
  - cbn in Hsub. rewrite Hsub. cbn. by destruct (ltb _ zero), flag.
Qed.

Lemma kpi_result_subtractable targets k (values : list num) flag r flag' :
  kpi_result targets k values flag = Ok (r, flag') →
  subtractable (dict_get (default ∅ (targets !! k)) "targetValue") = true.
Proof.
  unfold kpi_result.
  destruct (py_truediv _ _) as [actual|]; [|discriminate].
  cbn [mbind res_bind]. cbv zeta.
  destruct (dict_get (default ∅ (targets !! k)) "targetValue") as [|b|x|s|l|d|n];
    cbn; try done.
  by destruct (fits_float n).
Qed.

Lemma results_loop_expected targets (items : list (string * list num)) results flag :
  Forall (λ item, item.2 ≠ [] ∧
            subtractable (dict_get (default ∅ (targets !! item.1)) "targetValue") = true)
    items →
  results_loop targets items results flag =
  Ok (results ++
        ((λ item, expected_result item.1 item.2 (default ∅ (targets !! item.1))) <$> items),
      flag || existsb under_target
        ((λ item, expected_result item.1 item.2 (default ∅ (targets !! item.1))) <$> items)).
Proof.
  intros Hitems. revert results flag.
  induction Hitems as [|[k values] items [Hne Hsub] _ IH]; intros results flag.
  - cbn. by rewrite app_nil_r, orb_false_r.
  - cbn [results_loop]. cbn [fst snd] in Hne, Hsub.
    rewrite (kpi_result_expected _ _ _ _ Hne Hsub). cbn [mbind res_bind].
    rewrite IH, fmap_cons, <- app_assoc. cbn [existsb fst snd].
    by rewrite orb_assoc.
Qed.

Lemma results_loop_subtractable targets (items : list (string * list num))
    results flag results' flag' :
  results_loop targets items results flag = Ok (results', flag') →
  Forall (λ item,
            subtractable (dict_get (default ∅ (targets !! item.1)) "targetValue") = true)
    items.
Proof.
  revert results flag. induction items as [|[k values] items IH];
    intros results flag Hloop; [constructor|].
  cbn [results_loop] in Hloop.
  destruct (kpi_result targets k values flag) as [[r flag1]|e] eqn:Hbody;
    [|discriminate].
  cbn [mbind res_bind] in Hloop. constructor.
  - by apply kpi_result_subtractable in Hbody.
  - by apply IH in Hloop.
Qed.

(** ** The handler *)

Lemma commit_targets_iter data ts :
  py_iter (dict_get_default (valueCommit data) "kpiTargets" (PList [])) = Ok ts →
  commit_targets data = ts.
Proof. unfold commit_targets. by intros ->. Qed.

Lemma targets_lookup_matched data ts targets k :
  py_iter (dict_get_default (valueCommit data) "kpiTargets" (PList [])) = Ok ts →
  build_targets ts ∅ = Ok targets →
  default ∅ (targets !! k) = matched_target data k.
Proof.
  intros Hiter Hbuild. unfold matched_target.
  rewrite (commit_targets_iter _ _ Hiter), (build_targets_lookup _ _ _ k Hbuild).
  destruct (last_target ts k); [done|]. by rewrite lookup_empty.
Qed.

Lemma group_items_expected data ts targets :
  py_iter (dict_get_default (valueCommit data) "kpiTargets" (PList [])) = Ok ts →
  build_targets ts ∅ = Ok targets →
  (λ item : string * list num,
     expected_result item.1 item.2 (default ∅ (targets !! item.1)))
    <$> group_telemetry (telemetryData data) =
  expected_results data.
Proof.
  intros Hiter Hbuild. rewrite group_telemetry_spec. unfold expected_results.
  rewrite <- list_fmap_compose. apply list_fmap_ext. intros _ k _. cbn.
  by rewrite (targets_lookup_matched _ _ _ _ Hiter Hbuild).
Qed.

Lemma process_realization_accepted data :
  accepted data = true → process_realization data = Response (expected_response data).
Proof.
  unfold accepted, process_realization, realization_body.
  destruct (py_iter _) as [ts|e] eqn:Hiter; [|discriminate].
  intros [Hkeyed Hsub]%andb_true_iff.
  apply (build_targets_ok_iff ts ∅) in Hkeyed as [targets Hbuild].
  cbn [mbind res_bind]. rewrite Hbuild. cbn [mbind res_bind].
  rewrite results_loop_expected.
  - cbn [mbind res_bind app orb]. unfold expected_response.
    by rewrite (group_items_expected _ _ _ Hiter Hbuild).
  - rewrite group_telemetry_spec. apply Forall_fmap, Forall_forall.
    intros k Hk. rewrite elem_of_first_observed in Hk. cbn. split.
    + by apply group_values_nonempty.
    + rewrite (targets_lookup_matched _ _ _ _ Hiter Hbuild).
      rewrite forallb_forall in Hsub. by apply Hsub, list_elem_of_In.
Qed.

Lemma process_realization_Response_accepted data resp :
  process_realization data = Response resp → accepted data = true.
Proof.
  unfold accepted, process_realization, realization_body.
  destruct (py_iter _) as [ts|e] eqn:Hiter; [|discriminate].
  cbn [mbind res_bind].
  destruct (build_targets ts ∅) as [targets|e] eqn:Hbuild; [|discriminate].
  cbn [mbind res_bind].
  destruct (results_loop _ _ _ _) as [[results flag]|e] eqn:Hloop; [|discriminate].
  intros _. apply andb_true_iff. split.
  - apply (build_targets_ok_iff ts ∅). by exists targets.
  - apply results_loop_subtractable in Hloop.
    rewrite group_telemetry_spec, Forall_fmap, Forall_forall in Hloop.
    apply forallb_forall. intros k Hk%list_elem_of_In.
    rewrite <- (targets_lookup_matched _ _ _ _ Hiter Hbuild).
    apply (Hloop k). by apply elem_of_first_observed.
Qed.

Lemma process_realization_cases data :
  (∃ resp, process_realization data = Response resp) ∨
  (∃ e, process_realization data = HTTPException 500 e).
Proof.
  unfold process_realization. destruct (realization_body data); eauto.
Qed.

End ReferenceFacts.

(** * Further properties of the handler *)

Section Further.

Context {num : Type} `{!PyNumber num}.

#[local] Abbreviation pyval := (pyval num).
#[local] Abbreviation pydict := (gmap string pyval).

Implicit Types (targets : gmap string pydict) (ts : list pyval) (d : pydict)
  (data : RealizationRequest num) (resp : RealizationReport num)
  (r : KpiResult num) (k : string).

(** X1. Whenever the handler returns a report, it is the one the
    reference description gives: one result per distinct kpiId in
    first-observed order, built from the mean of the KPI's values and the
    last target entry for it, and the alert of these results. *)
Theorem handler_refines_reference data resp :
  process_realization data = Response resp → resp = expected_response data.
Proof.
  intros Hrun.
  pose proof (process_realization_Response_accepted _ _ Hrun) as Hacc.
  rewrite (process_realization_accepted _ Hacc) in Hrun. by injection Hrun.
Qed.

(** X2. The handler returns a report exactly on the accepted requests:
    [kpiTargets] can be iterated, every entry is a dict with a hashable
    [kpiId], and every KPI that has samples has a [targetValue] that is
    [None], a float, a bool or an integer that converts to a float (below
    2^1024 - 2^970 in absolute value).  On every other request, a target
    that is a larger integer included, it answers 500. *)
Theorem report_iff_accepted data :
  ((∃ resp, process_realization data = Response resp) ↔ accepted data = true) ∧
  ((∃ e, process_realization data = HTTPException 500 e) ↔ accepted data = false).
Proof.
  split; split.
  - intros [resp Hrun]. by apply process_realization_Response_accepted in Hrun.
  - intros Hacc. eexists. by apply process_realization_accepted.
  - intros [e Hfail]. destruct (accepted data) eqn:Hacc; [|done].
    rewrite (process_realization_accepted _ Hacc) in Hfail. discriminate.
  - intros Hrej. destruct (process_realization_cases data) as [[resp Hrun]|Hfail];
      [|done].
    apply process_realization_Response_accepted in Hrun. congruence.
Qed.

(** X3. In every result the variance is present exactly when the target
    value is, and for a numeric target it is the actual value minus the
    target, an integer target being converted to a float first; a target of
    zero is a target like any other. *)
Theorem variance_is_actual_minus_target data resp r :
  process_realization data = Response resp →
  r ∈ report_results (realizationReport resp) →
  (result_variance r = None ↔ result_targetValue r = PNone) ∧
  (∀ x, result_targetValue r = PNum x →
        result_variance r = Some (sub (result_actualValue r) x)) ∧
  (∀ n, result_targetValue r = PInt n →
        result_variance r = Some (sub (result_actualValue r) (of_int n))).
Proof.
  intros Hrun Hr.
  destruct (result_origin _ _ _ Hrun Hr)
    as (ts & targets & _ & _ & _ & flag & flag' & Hbody).
  apply kpi_result_inv in Hbody as (_ & _ & _ & _ & _ & Hv & _).
  destruct (result_variance r) as [variance|].
  - destruct Hv as [Hsome Hsub]. split; [split; [discriminate|done]|].
    split.
    + intros x Hx. rewrite Hx in Hsub. cbn in Hsub. by injection Hsub as <-.
    + intros n Hn. rewrite Hn in Hsub. cbn in Hsub.
      destruct (fits_float n); [|discriminate]. by injection Hsub as <-.
  - split; [done|]. split; [intros x Hx|intros n Hn]; by rewrite ?Hx, ?Hn in Hv.
Qed.

(** X4. A commit without [kpiTargets], or with an empty list there, never
    fails, whatever the telemetry: every KPI seen gets a result with no
    target value, unit or variance, and the alert is "ok". *)
Theorem no_targets_never_fails data :
  valueCommit data !! "kpiTargets" = None ∨
  valueCommit data !! "kpiTargets" = Some (PList []) →
  ∃ resp, process_realization data = Response resp ∧
    result_kpiId <$> report_results (realizationReport resp) =
      first_observed (kpiId <$> telemetryData data) ∧
    (∀ r, r ∈ report_results (realizationReport resp) →
          result_targetValue r = PNone ∧ result_unit r = PNone ∧
          result_variance r = None) ∧
    renewalAlert resp = {["status" := PStr "ok"]}.
Proof.
  intros Hkey.
  assert (py_iter (dict_get_default (valueCommit data) "kpiTargets" (PList [])) = Ok [])
    as Hiter.
  { unfold dict_get_default. by destruct Hkey as [-> | ->]. }
  assert (∀ k, matched_target data k = ∅) as Hmatched.
  { intros k. unfold matched_target. by rewrite (commit_targets_iter _ _ Hiter). }
  assert (accepted data = true) as Hacc.
  { unfold accepted. rewrite Hiter. cbn [forallb andb].
    apply forallb_forall. intros k _. by rewrite Hmatched. }
  exists (expected_response data).
  split; [by apply process_realization_accepted|].
  assert (∀ r, r ∈ expected_results data →
            result_targetValue r = PNone ∧ result_unit r = PNone ∧
            result_variance r = None) as Hblank.
  { intros r (k & -> & _)%list_elem_of_fmap. by rewrite Hmatched. }
  split; [|split; [done|]].
  - cbn. unfold expected_results. rewrite <- list_fmap_compose.
    rewrite <- (list_fmap_id (first_observed _)) at 2.
    by apply list_fmap_ext.
  - cbn. replace (existsb under_target (expected_results data)) with false; [done|].
    symmetry. apply not_true_is_false. rewrite existsb_under_target.
    intros (r & variance & Hr & Hv & _).
    destruct (Hblank r Hr) as (_ & _ & Hnone). congruence.
Qed.

(** ** Entries that cannot be filed *)

Lemma build_targets_app_keyed (l1 : list pyval) targets0 :
  forallb keyed l1 = true →
  ∃ targets1, ∀ rest,
    build_targets (l1 ++ rest) targets0 = build_targets rest targets1.
Proof.
  revert targets0. induction l1 as [|t l1 IH]; intros targets0 Hkeyed.
  - by exists targets0.
  - cbn [forallb] in Hkeyed. apply andb_true_iff in Hkeyed as [Ht Hl1].
    destruct t as [| | | | |d|]; try discriminate. cbn [keyed] in Ht.
    destruct (d !! "kpiId") as [[| | |k'| | |]|] eqn:Hk; try discriminate.
    1-3, 5: destruct (IH targets0 Hl1) as [targets1 Heq]; exists targets1;
         intros rest; rewrite <- app_comm_cons; cbn [build_targets];
         by rewrite Hk.
    destruct (IH (<[k' := d]> targets0) Hl1) as [targets1 Heq]. exists targets1.
    intros rest. rewrite <- app_comm_cons. cbn [build_targets]. by rewrite Hk.
Qed.

Lemma build_targets_unkeyed (t : pyval) (rest : list pyval) targets0 :
  keyed t = false → build_targets (t :: rest) targets0 = Raise (filing_error t).
Proof.
  destruct t as [| | | | |d|]; try done. cbn.
  by destruct (d !! "kpiId") as [[| | | | | |]|].
Qed.

(** X5. The first entry of [kpiTargets] that is not a dict with a hashable
    [kpiId] fails the whole request with a 500, whatever the telemetry
    (even none): [KeyError] for a dict without [kpiId], [TypeError]
    otherwise. *)
Theorem unfiled_target_fails data (l1 l2 : list pyval) (t : pyval) :
  valueCommit data !! "kpiTargets" = Some (PList (l1 ++ t :: l2)) →
  forallb keyed l1 = true →
  keyed t = false →
  process_realization data = HTTPException 500 (filing_error t).
Proof.
  intros Hvc Hl1 Ht. unfold process_realization, realization_body, dict_get_default.
  rewrite Hvc. cbn [from_option id py_iter mbind res_bind].
  destruct (build_targets_app_keyed l1 ∅ Hl1) as [targets1 ->].
  by rewrite (build_targets_unkeyed _ _ _ Ht).
Qed.

(** ** Timestamps *)

Lemma group_telemetry_reading (telemetry : list (Telemetry num)) :
  group_telemetry telemetry =
  foldl (λ aggregates p, setdefault_append aggregates p.1 p.2) [] (reading <$> telemetry).
Proof. unfold group_telemetry. by rewrite foldl_fmap. Qed.

(** X6. The answer depends on the request only through the [id] and the
    [kpiTargets] of the commit and the kpiId and value of each sample:
    timestamps and other keys of the commit play no part. *)
Theorem answer_depends_only_on_readings data data' :
  valueCommit data !! "id" = valueCommit data' !! "id" →
  valueCommit data !! "kpiTargets" = valueCommit data' !! "kpiTargets" →
  reading <$> telemetryData data = reading <$> telemetryData data' →
  process_realization data = process_realization data'.
Proof.
  intros Hid Hts Htel.
  unfold process_realization, realization_body, dict_get_default, dict_get.
  by rewrite !group_telemetry_reading, Hid, Hts, Htel.
Qed.

(** ** The last target *)

Lemma target_for_Some k (t : pyval) d :
  target_for k t = Some d ↔ t = PDict d ∧ d !! "kpiId" = Some (PStr k).
Proof.
  destruct t as [| | | | |d0|]; cbn; try (split; [done|by intros [? _]]).
  destruct (d0 !! "kpiId") as [[| | |k'| | |]|] eqn:Hk;
    try (split; [done|intros [[= ->] ?]; congruence]).
  destruct (decide (k' = k)) as [->|Hne].
  - split; [by intros [= ->]|by intros [[= ->] _]].
  - split; [done|]. intros [[= ->] ?]. congruence.
Qed.

Lemma last_target_Some ts k d :
  last_target ts k = Some d → PDict d ∈ ts ∧ d !! "kpiId" = Some (PStr k).
Proof.
  induction ts as [|t ts IH]; [done|]. cbn [last_target].
  destruct (last_target ts k) as [d'|].
  - intros [= ->]. destruct (IH eq_refl) as [Hin Hk]. split; [by right|done].
  - intros [-> Hk]%target_for_Some. split; [by left|done].
Qed.

Lemma last_target_is_Some ts k d :
  PDict d ∈ ts → d !! "kpiId" = Some (PStr k) → is_Some (last_target ts k).
Proof.
  intros Hin Hk. induction ts as [|t ts IH]; [by apply not_elem_of_nil in Hin|].
  cbn [last_target]. destruct (last_target ts k) as [d'|] eqn:Hlast; [by eexists|].
  apply elem_of_cons in Hin as [<-|Hin].
  - exists d. by apply target_for_Some.
  - by destruct (IH Hin) as [? ?].
Qed.

Lemma target_key_Some (t : pyval) k :
  target_key t = Some k ↔ ∃ d, t = PDict d ∧ d !! "kpiId" = Some (PStr k).
Proof.
  destruct t as [| | | | |d0|]; cbn; try (split; [done|by intros (? & ? & _)]).
  split.
  - destruct (d0 !! "kpiId") as [[| | |k'| | |]|] eqn:Hk; try done.
    intros [= ->]. by exists d0.
  - intros (d & [= <-] & ->). done.
Qed.

Lemma target_unique ts d1 d2 k :
  NoDup (omap target_key ts) →
  PDict d1 ∈ ts → PDict d2 ∈ ts →
  d1 !! "kpiId" = Some (PStr k) → d2 !! "kpiId" = Some (PStr k) → d1 = d2.
Proof.
  intros Hnd H1 H2 Hk1 Hk2. induction ts as [|t ts IH];
    [by apply not_elem_of_nil in H1|].
  assert (∀ d, PDict d ∈ ts → d !! "kpiId" = Some (PStr k) →
               k ∈ omap target_key ts) as Hmem.
  { intros d Hd Hk. apply list_elem_of_omap. exists (PDict d). split; [done|].
    apply target_key_Some. by exists d. }
  cbn [omap list_omap] in Hnd.
  apply elem_of_cons in H1 as [E1|H1]; apply elem_of_cons in H2 as [E2|H2].
  - congruence.
  - subst t. cbn [target_key] in Hnd. rewrite Hk1 in Hnd.
    apply NoDup_cons in Hnd as [Hout _]. by destruct Hout; apply (Hmem d2).
  - subst t. cbn [target_key] in Hnd. rewrite Hk2 in Hnd.
    apply NoDup_cons in Hnd as [Hout _]. by destruct Hout; apply (Hmem d1).
  - apply IH; [|done|done].
    destruct (target_key t); [by apply NoDup_cons in Hnd as [_ ?]|done].
Qed.

Lemma last_target_Permutation ts ts' k :
  NoDup (omap target_key ts) → ts ≡ₚ ts' →
  last_target ts k = last_target ts' k.
Proof.
  intros Hnd Hperm.
  destruct (last_target ts k) as [d|] eqn:Hl; destruct (last_target ts' k) as [d'|] eqn:Hl';
    [|exfalso|exfalso|done].
  - apply last_target_Some in Hl as [Hin Hk]. apply last_target_Some in Hl' as [Hin' Hk'].
    rewrite <- Hperm in Hin'. f_equal. by apply (target_unique ts d d' k).
  - apply last_target_Some in Hl as [Hin Hk]. rewrite Hperm in Hin.
    destruct (last_target_is_Some _ _ _ Hin Hk) as [? ?]. congruence.
  - apply last_target_Some in Hl' as [Hin Hk]. rewrite <- Hperm in Hin.
    destruct (last_target_is_Some _ _ _ Hin Hk) as [? ?]. congruence.
Qed.

(** X7. Among entries with distinct kpiIds the order of [kpiTargets] does
    not matter: the handler answers a request and the same request with its
    (well-keyed) targets permuted in the same way. *)
Theorem target_order_irrelevant data ts ts' :
  forallb keyed ts = true →
  NoDup (omap target_key ts) →
  ts ≡ₚ ts' →
  process_realization (with_targets ts data) =
  process_realization (with_targets ts' data).
Proof.
  intros Hkeyed Hnd Hperm.
  assert (forallb keyed ts' = true) as Hkeyed'.
  { apply forallb_forall. intros t Ht%list_elem_of_In. rewrite <- Hperm in Ht.
    rewrite forallb_forall in Hkeyed. by apply Hkeyed, list_elem_of_In. }
  apply (build_targets_ok_iff ts ∅) in Hkeyed as [targets Hbuild].
  apply (build_targets_ok_iff ts' ∅) in Hkeyed' as [targets' Hbuild'].
  assert (targets = targets') as <-.
  { apply map_eq. intros k.
    rewrite (build_targets_lookup _ _ _ k Hbuild), (build_targets_lookup _ _ _ k Hbuild').
    by rewrite (last_target_Permutation ts ts' k Hnd Hperm). }
  unfold process_realization, realization_body, with_targets, dict_get_default, dict_get.
  cbn [valueCommit telemetryData].
  rewrite !lookup_insert_eq, !lookup_insert_ne by done.
  cbn [from_option id py_iter mbind res_bind].
  by rewrite Hbuild, Hbuild'.
Qed.

(** ** The alert in terms of the request *)

Lemma well_typed_target data k d :
  is_ValueCommit (valueCommit data) = true →
  last_target (commit_targets data) k = Some d →
  ∃ x, target_number (dict_get d "targetValue") = Some x.
Proof.
  unfold is_ValueCommit, commit_targets, dict_get_default.
  intros [_ Hts]%andb_true_iff. unfold dict_get in Hts at 1.
  destruct (valueCommit data !! "kpiTargets") as [[| | | |ts| |]|]; try discriminate.
  cbn [from_option id py_iter] in *.
  intros [Hin _]%last_target_Some.
  rewrite forallb_forall in Hts. apply list_elem_of_In, Hts in Hin.
  cbn [is_KpiTarget] in Hin. apply andb_true_iff in Hin as [Hin _].
  apply andb_true_iff in Hin as [_ Hnum].
  destruct (dict_get d "targetValue") as [| |x| | | |n]; try discriminate;
    cbn; eauto.
Qed.

Lemma expected_variance_well_typed data k (values : list num) :
  is_ValueCommit (valueCommit data) = true →
  result_variance (expected_result k values (matched_target data k)) =
  d ← last_target (commit_targets data) k;
  x ← target_number (dict_get d "targetValue");
  Some (sub (arithmetic_mean values) x).
Proof.
  intros Hvc. unfold matched_target.
  destruct (last_target (commit_targets data) k) as [d|] eqn:Hlast; cbn.
  - destruct (well_typed_target _ _ _ Hvc Hlast) as [x Hx].
    by destruct (dict_get d "targetValue").
  - unfold dict_get. by rewrite lookup_empty.
Qed.

(** X8. On a well-typed commit the alert is "risk" exactly when some KPI
    that has samples has a target and the mean of its values minus the
    value of its last target entry (a float, or an integer converted to
    one) is below zero; when [a - x < 0] is the same as [a < x], exactly
    when that mean is below that target. *)
Theorem risk_iff_mean_below_target data resp :
  is_ValueCommit (valueCommit data) = true →
  process_realization data = Response resp →
  (renewalAlert resp !! "status" = Some (PStr "risk") ↔
     ∃ k d x, k ∈ kpiId <$> telemetryData data ∧
       last_target (commit_targets data) k = Some d ∧
       target_number (dict_get d "targetValue") = Some x ∧
       ltb (sub (arithmetic_mean (group_values k (telemetryData data))) x) zero = true) ∧
  ((∀ a x : num, ltb (sub a x) zero = ltb a x) →
   (renewalAlert resp !! "status" = Some (PStr "risk") ↔
      ∃ k d x, k ∈ kpiId <$> telemetryData data ∧
        last_target (commit_targets data) k = Some d ∧
        target_number (dict_get d "targetValue") = Some x ∧
        ltb (arithmetic_mean (group_values k (telemetryData data))) x = true)).
Proof.
  intros Hvc Hrun.
  pose proof (process_realization_Response_accepted _ _ Hrun) as Hacc.
  rewrite (process_realization_accepted _ Hacc) in Hrun. injection Hrun as <-.
  assert (renewalAlert (expected_response data) !! "status" = Some (PStr "risk") ↔
     ∃ k d x, k ∈ kpiId <$> telemetryData data ∧
       last_target (commit_targets data) k = Some d ∧
       target_number (dict_get d "targetValue") = Some x ∧
       ltb (sub (arithmetic_mean (group_values k (telemetryData data))) x) zero = true)
    as Hiff.
  { cbn [expected_response renewalAlert]. rewrite make_alert_status. split.
    - intros Hrisk.
      destruct (existsb under_target (expected_results data)) eqn:Hex; [|discriminate].
      apply existsb_under_target in Hex as (r & variance & Hr & Hv & Hlt).
      apply list_elem_of_fmap in Hr as (k & -> & Hk).
      rewrite elem_of_first_observed in Hk.
      rewrite (expected_variance_well_typed _ _ _ Hvc) in Hv.
      destruct (last_target (commit_targets data) k) as [d|] eqn:Hlast;
        [|discriminate].
      cbn in Hv.
      destruct (target_number (dict_get d "targetValue")) as [x|] eqn:Hx;
        [|discriminate].
      injection Hv as <-. by exists k, d, x.
    - intros (k & d & x & Hk & Hlast & Hx & Hlt).
      replace (existsb under_target (expected_results data)) with true; [done|].
      symmetry. apply existsb_under_target.
      exists (expected_result k (group_values k (telemetryData data)) (matched_target data k)),
        (sub (arithmetic_mean (group_values k (telemetryData data))) x).
      split; [|split; [|done]].
      + apply list_elem_of_fmap. exists k. split; [done|].
        by apply elem_of_first_observed.
      + rewrite (expected_variance_well_typed _ _ _ Hvc), Hlast. cbn. by rewrite Hx. }
  split; [done|]. intros Hlaw. rewrite Hiff.
  split; intros (k & d & x & Hk & Hlast & Hx & Hlt); exists k, d, x;
    repeat split; try done; by rewrite ?Hlaw in *.
Qed.

(** ** One KPI at a time *)

Lemma filter_ne_constant (ks : list string) k :
  (∀ k', k' ∈ ks → k' = k) → filter (λ k', k' ≠ k) ks = [].
Proof.
  induction ks as [|a ks IH]; intros Hall; [done|].
  rewrite filter_cons, decide_False.
  - apply IH. intros k' Hk'. apply Hall. by right.
  - intros Hne. apply Hne, Hall. by left.
Qed.

Lemma first_observed_constant (ks : list string) k :
  ks ≠ [] → (∀ k', k' ∈ ks → k' = k) → first_observed ks = [k].
Proof.
  destruct ks as [|a ks]; [done|]. intros _ Hall. cbn [first_observed].
  rewrite (Hall a) by by left. f_equal. apply filter_ne_constant.
  intros k' Hk'. rewrite elem_of_first_observed in Hk'. apply Hall. by right.
Qed.

Lemma group_values_only k (telemetry : list (Telemetry num)) :
  group_values k (filter (λ t, kpiId t = k) telemetry) = group_values k telemetry.
Proof.
  unfold group_values. f_equal.
  induction telemetry as [|t l IH]; [done|].
  rewrite filter_cons. destruct (decide (kpiId t = k)) as [Hk|Hk]; [|done].
  by rewrite filter_cons, decide_True, IH by done.
Qed.

(** X9. The result of a KPI does not depend on the samples of the other
    KPIs: the request reduced to the samples of one result's KPI is answered
    with that result alone, and with the alert of that result. *)
Theorem kpi_results_are_independent data resp r :
  process_realization data = Response resp →
  r ∈ report_results (realizationReport resp) →
  process_realization (only_kpi (result_kpiId r) data) =
  Response
    {| realizationReport :=
         {| report_id := report_id (realizationReport resp);
            report_valueCommitId := report_valueCommitId (realizationReport resp);
            report_generatedAt := report_generatedAt (realizationReport resp);
            report_results := [r] |};
       renewalAlert := make_alert (under_target r) |}.
Proof.
  intros Hrun Hr.
  pose proof (process_realization_Response_accepted _ _ Hrun) as Hacc.
  rewrite (process_realization_accepted _ Hacc) in Hrun. injection Hrun as <-.
  cbn [expected_response realizationReport report_results] in Hr.
  apply list_elem_of_fmap in Hr as (k & -> & Hk).
  rewrite elem_of_first_observed in Hk.
  cbn [expected_result result_kpiId].
  assert (accepted (only_kpi k data) = true) as Hacc'.
  { unfold accepted in *. cbn [only_kpi valueCommit telemetryData].
    destruct (py_iter _) as [ts|]; [|done].
    apply andb_true_iff in Hacc as [Hkeyed Hsub].
    apply andb_true_iff. split; [done|].
    rewrite forallb_forall in Hsub. apply forallb_forall.
    intros k' Hk'%list_elem_of_In. apply (Hsub k'), list_elem_of_In.
    apply list_elem_of_fmap in Hk' as (t & -> & Ht%list_elem_of_filter).
    apply list_elem_of_fmap. exists t. by destruct Ht. }
  rewrite (process_realization_accepted _ Hacc'). f_equal.
  assert (expected_results (only_kpi k data) =
          [expected_result k (group_values k (telemetryData data)) (matched_target data k)])
    as Hone.
  { unfold expected_results. cbn [only_kpi telemetryData].
    rewrite (first_observed_constant _ k).
    - cbn. by rewrite group_values_only.
    - apply group_values_nonempty in Hk. unfold group_values in Hk.
      by destruct (filter _ (telemetryData data)).
    - intros k' (t & -> & Ht%list_elem_of_filter)%list_elem_of_fmap. by destruct Ht. }
  unfold expected_response. rewrite Hone. cbn. by rewrite orb_false_r.
Qed.

(** ** Target values that cannot be subtracted *)

Lemma kpi_result_raise targets k (values : list num) flag e :
  values ≠ [] → kpi_result targets k values flag = Raise e →
  subtractable (dict_get (default ∅ (targets !! k)) "targetValue") = false ∧
  e = subtraction_error (dict_get (default ∅ (targets !! k)) "targetValue").
Proof.
  intros Hne. unfold kpi_result, py_truediv.
  rewrite decide_False by (by destruct values).
  cbn [mbind res_bind]. cbv zeta.
  destruct (dict_get (default ∅ (targets !! k)) "targetValue") as [|b|x|s|l|d|n];
    cbn; try discriminate; try (by intros [= <-]).
  destruct (fits_float n); cbn; [discriminate|]. by intros [= <-].
Qed.

Lemma results_loop_raise targets (items : list (string * list num)) results flag e :
  Forall (λ item, item.2 ≠ []) items →
  results_loop targets items results flag = Raise e →
  ∃ items1 item items2, items = items1 ++ item :: items2 ∧
    Forall (λ it, subtractable
                    (dict_get (default ∅ (targets !! it.1)) "targetValue") = true)
      items1 ∧
    subtractable (dict_get (default ∅ (targets !! item.1)) "targetValue") = false ∧
    e = subtraction_error (dict_get (default ∅ (targets !! item.1)) "targetValue").
Proof.
  intros Hitems. revert results flag.
  induction Hitems as [|[k values] items Hne _ IH]; intros results flag; [done|].
  cbn [results_loop].
  destruct (kpi_result targets k values flag) as [[r flag1]|e'] eqn:Hbody;
    cbn [mbind res_bind].
  - intros (items1 & item & items2 & -> & Hgood & Hbad & ->)%IH.
    exists ((k, values) :: items1), item, items2. split; [done|].
    split; [|done]. constructor; [|done].
    by apply kpi_result_subtractable in Hbody.
  - intros [= <-]. apply kpi_result_raise in Hbody as [Hbad ->]; [|done].
    by exists [], (k, values), items.
Qed.

(** X10. Once every entry of [kpiTargets] can be filed, the handler fails
    exactly when some KPI that has samples has, in its last target entry, a
    [targetValue] that cannot be subtracted from a float: a string, a list,
    a dict, or an integer too large for a float.  The failure is a 500
    carrying the error of the first such KPI in the order of the results:
    [OverflowError] for the integer, [TypeError] for the others.  Such a
    target for a KPI without samples is never looked at. *)
Theorem bad_target_value_fails_iff_observed data ts :
  valueCommit data !! "kpiTargets" = Some (PList ts) →
  forallb keyed ts = true →
  ((∃ e, process_realization data = HTTPException 500 e) ↔
     ∃ k d, k ∈ kpiId <$> telemetryData data ∧ last_target ts k = Some d ∧
       subtractable (dict_get d "targetValue") = false) ∧
  (∀ status e, process_realization data = HTTPException status e →
     status = 500 ∧
     ∃ ks1 k ks2 d,
       first_observed (kpiId <$> telemetryData data) = ks1 ++ k :: ks2 ∧
       (∀ k' d', k' ∈ ks1 → last_target ts k' = Some d' →
                 subtractable (dict_get d' "targetValue") = true) ∧
       last_target ts k = Some d ∧
       subtractable (dict_get d "targetValue") = false ∧
       e = subtraction_error (dict_get d "targetValue")) ∧
  ((∃ resp, process_realization data = Response resp) ↔
     ∀ k d, k ∈ kpiId <$> telemetryData data → last_target ts k = Some d →
       subtractable (dict_get d "targetValue") = true).
Proof.
  intros Hvc Hkeyed.
  assert (py_iter (dict_get_default (valueCommit data) "kpiTargets" (PList [])) = Ok ts)
    as Hiter by (unfold dict_get_default; by rewrite Hvc).
  assert (accepted data = true ↔
          ∀ k d, k ∈ kpiId <$> telemetryData data → last_target ts k = Some d →
                 subtractable (dict_get d "targetValue") = true) as Hacc.
  { unfold accepted, matched_target. rewrite (commit_targets_iter _ _ Hiter), Hiter, Hkeyed.
    cbn [andb]. rewrite forallb_forall. split.
    - intros Hall k d Hk Hlast. apply list_elem_of_In, Hall in Hk.
      by rewrite Hlast in Hk.
    - intros Hall k Hk%list_elem_of_In.
      destruct (last_target ts k) as [d|] eqn:Hlast; [by apply (Hall k d)|].
      cbn. unfold dict_get. by rewrite lookup_empty. }
  assert (∀ status e, process_realization data = HTTPException status e →
     status = 500 ∧
     ∃ ks1 k ks2 d,
       first_observed (kpiId <$> telemetryData data) = ks1 ++ k :: ks2 ∧
       (∀ k' d', k' ∈ ks1 → last_target ts k' = Some d' →
                 subtractable (dict_get d' "targetValue") = true) ∧
       last_target ts k = Some d ∧
       subtractable (dict_get d "targetValue") = false ∧
       e = subtraction_error (dict_get d "targetValue")) as Herr.
  { unfold process_realization, realization_body. rewrite Hiter.
    cbn [mbind res_bind].
    destruct (proj2 (build_targets_ok_iff ts ∅) Hkeyed) as [targets Hbuild].
    rewrite Hbuild. cbn [mbind res_bind].
    destruct (results_loop _ _ _ _) as [[results flag]|e'] eqn:Hloop;
      cbn [mbind res_bind]; [discriminate|].
    intros status e [= <- <-]. split; [done|].
    apply results_loop_raise in Hloop
      as (items1 & [k values] & items2 & Hitems & Hgood & Hbad & ->).
    2:{ rewrite group_telemetry_spec. apply Forall_fmap, Forall_forall.
        intros k Hk. rewrite elem_of_first_observed in Hk. cbn.
        by apply group_values_nonempty. }
    rewrite group_telemetry_spec in Hitems.
    apply fmap_app_inv in Hitems as (ks1 & ks' & -> & Hks' & Hobs).
    symmetry in Hks'. apply fmap_cons_inv in Hks' as (k0 & ks2 & [= -> ->] & _ & ->).
    cbn [fst] in Hbad |- *.
    assert (∀ k', default ∅ (targets !! k') = default ∅ (last_target ts k'))
      as Hmatched.
    { intros k'. rewrite (build_targets_lookup _ _ _ k' Hbuild).
      destruct (last_target ts k'); [done|]. by rewrite lookup_empty. }
    rewrite Hmatched in Hbad |- *.
    destruct (last_target ts k0) as [d|] eqn:Hlast.
    2:{ cbn in Hbad. unfold dict_get in Hbad. by rewrite lookup_empty in Hbad. }
    exists ks1, k0, ks2, d. repeat split; try done.
    intros k' d' Hk' Hlast'. rewrite Forall_fmap, Forall_forall in Hgood.
    specialize (Hgood k' Hk'). cbn in Hgood.
    by rewrite Hmatched, Hlast' in Hgood. }
  split; [|split; [done|]].
  - split.
    + intros [e Hfail].
      destruct (Herr _ _ Hfail) as (_ & ks1 & k & ks2 & d & Hobs & _ & Hlast & Hbad & _).
      exists k, d. split; [|done].
      rewrite <- elem_of_first_observed, Hobs, elem_of_app, elem_of_cons. auto.
    + intros (k & d & Hk & Hlast & Hbad).
      destruct (process_realization_cases data) as [[resp Hrun]|Hfail]; [|done].
      apply process_realization_Response_accepted in Hrun.
      rewrite Hacc in Hrun. specialize (Hrun k d Hk Hlast). congruence.
  - rewrite <- Hacc. split.
    + intros [resp Hrun]. by apply process_realization_Response_accepted in Hrun.
    + intros Ha. eexists. by apply process_realization_accepted.
Qed.

(** ** The groups as a partition of the samples *)

Lemma setdefault_append_values (aggregates : list (string * list num)) k (v : num) :
  mjoin (snd <$> setdefault_append aggregates k v) ≡ₚ
  mjoin (snd <$> aggregates) ++ [v].
Proof.
  induction aggregates as [|[k' values] rest IH]; [done|].
  cbn [setdefault_append]. destruct (decide (k' = k)) as [_|_]; csimpl.
  - rewrite <- !app_assoc. f_equiv. apply Permutation_app_comm.
  - by rewrite IH, app_assoc.
Qed.

(** X11. The grouping of lines 35-37 loses and repeats nothing: the keys
    of [aggregates] are pairwise distinct, no group is empty, and the
    groups together hold the value of every sample exactly once. *)
Theorem groups_partition_samples (telemetry : list (Telemetry num)) :
  NoDup (fst <$> group_telemetry telemetry) ∧
  Forall (λ item, item.2 ≠ []) (group_telemetry telemetry) ∧
  mjoin (snd <$> group_telemetry telemetry) ≡ₚ value <$> telemetry.
Proof.
  split; [|split].
  - rewrite group_telemetry_spec, <- list_fmap_compose.
    replace (first_observed (kpiId <$> telemetry))
      with (id <$> first_observed (kpiId <$> telemetry)) at 2 by apply list_fmap_id.
    rewrite (list_fmap_ext _ id) by done.
    rewrite list_fmap_id. apply NoDup_first_observed.
  - rewrite group_telemetry_spec. apply Forall_fmap, Forall_forall.
    intros k Hk. rewrite elem_of_first_observed in Hk. cbn.
    by apply group_values_nonempty.
  - induction telemetry as [|t l IH] using rev_ind; [done|].
    unfold group_telemetry in *. rewrite foldl_snoc, setdefault_append_values.
    by rewrite IH, fmap_app.
Qed.

(** ** A [kpiTargets] that is not a list *)

(** X12. A [kpiTargets] that is not a list fails the request with a 500
    and a [TypeError], whatever the telemetry, unless it is the empty
    string or the empty dict, over which the loop of line 34 never runs. *)
Theorem non_list_targets_fail data (v : pyval) :
  valueCommit data !! "kpiTargets" = Some v →
  (∀ ts, v ≠ PList ts) → v ≠ PStr "" → v ≠ PDict ∅ →
  process_realization data = HTTPException 500 TypeError.
Proof.
  intros Hvc Hlist Hstr Hdict.
  unfold process_realization, realization_body, dict_get_default.
  rewrite Hvc. cbn [from_option id].
  destruct v as [| | |s|ts|d|]; try done.
  - destruct s as [|c s]; [done|]. by cbn.
  - by destruct (Hlist ts).
  - cbn [py_iter mbind res_bind].
    destruct (map_to_list d) as [|[k' v'] rest] eqn:Hd.
    + apply map_to_list_empty_iff in Hd. by subst d.
    + by cbn.
Qed.

(** ** One more sample *)

(** X13. A further sample leaves the results of the other KPIs as they
    are.  If its KPI was not seen before, its result comes last, after all
    the earlier results; if it was seen, the results keep their kpiIds and
    places, and only the result of that KPI can differ. *)
Theorem one_more_sample data (t : Telemetry num) resp resp' :
  process_realization data = Response resp →
  process_realization (with_sample t data) = Response resp' →
  (kpiId t ∉ kpiId <$> telemetryData data →
     ∃ r, report_results (realizationReport resp') =
            report_results (realizationReport resp) ++ [r] ∧
          result_kpiId r = kpiId t ∧
          result_actualValue r = arithmetic_mean [value t]) ∧
  (kpiId t ∈ kpiId <$> telemetryData data →
     result_kpiId <$> report_results (realizationReport resp') =
       result_kpiId <$> report_results (realizationReport resp) ∧
     ∀ (i : nat) r r',
       report_results (realizationReport resp) !! i = Some r →
       report_results (realizationReport resp') !! i = Some r' →
       result_kpiId r ≠ kpiId t → r' = r).
Proof.
  intros Hrun Hrun'.
  pose proof (process_realization_Response_accepted _ _ Hrun) as Hacc.
  rewrite (process_realization_accepted _ Hacc) in Hrun. injection Hrun as <-.
  pose proof (process_realization_Response_accepted _ _ Hrun') as Hacc'.
  rewrite (process_realization_accepted _ Hacc') in Hrun'. injection Hrun' as <-.
  cbn [expected_response realizationReport report_results].
  assert (∀ k, k ≠ kpiId t →
     expected_result k (group_values k (telemetryData (with_sample t data)))
       (matched_target (with_sample t data) k) =
     expected_result k (group_values k (telemetryData data)) (matched_target data k))
    as Hother.
  { intros k Hne. cbn [with_sample telemetryData].
    rewrite group_values_snoc, decide_False, app_nil_r by done. done. }
  unfold expected_results. cbn [with_sample telemetryData].
  rewrite fmap_app. cbn [fmap list_fmap]. rewrite first_observed_snoc.
  split.
  - intros Hnew. rewrite decide_False by done. rewrite fmap_app. cbn [fmap list_fmap].
    exists (expected_result (kpiId t)
              (group_values (kpiId t) (telemetryData data ++ [t]))
              (matched_target (with_sample t data) (kpiId t))).
    split; [|split; [done|]].
    + f_equal. apply list_fmap_ext. intros _ k Hk%list_elem_of_lookup_2.
      rewrite elem_of_first_observed in Hk.
      apply (Hother k). by intros ->.
    + cbn. by rewrite group_values_snoc, decide_True, (group_values_nil _ _ Hnew) by done.
  - intros Hseen. rewrite decide_True by done. split.
    + rewrite <- !list_fmap_compose. by apply list_fmap_ext.
    + intros i r r' Hi Hi' Hne.
      apply list_lookup_fmap_Some in Hi as (k & -> & Hk).
      apply list_lookup_fmap_Some in Hi' as (k' & -> & Hk').
      rewrite Hk in Hk'. injection Hk' as <-.
      by apply (Hother k).
Qed.

End Further.

(** * The further properties on sample requests *)

Lemma Q_ltb_sub (a x : Q) : ltb (sub a x) zero = ltb a x.
Proof.
  cbn. unfold Qltb. f_equal.
  apply eq_true_iff_eq. rewrite !Qle_bool_iff. symmetry. apply Qle_minus_iff.
Qed.

(** X1 on the mixed request. *)
Lemma handler_refines_reference_witness :
  process_realization mixed = Response mixed_response ∧
  mixed_response = expected_response mixed.
Proof.
  assert (process_realization mixed = Response mixed_response)
    as Hrun by (vm_compute; reflexivity).
  split; [exact Hrun|]. exact (handler_refines_reference mixed mixed_response Hrun).
Defined.

(** X3 on a target of zero met exactly: the variance is there, 0 - 0; and
    on the first scenario with its target written as the integer 15. *)
Lemma variance_is_actual_minus_target_witness :
  (process_realization zero_target = Response (response [zero_target_row] ok_alert) ∧
   result_variance zero_target_row =
     Some (sub (result_actualValue zero_target_row) 0%Q)) ∧
  (process_realization on_target_int = Response on_target_int_response ∧
   result_variance on_target_int_row =
     Some (sub (result_actualValue on_target_int_row) (inject_Z 15))).
Proof.
  split.
  - assert (process_realization zero_target =
              Response (response [zero_target_row] ok_alert))
      as Hrun by (vm_compute; reflexivity).
    split; [exact Hrun|].
    destruct (variance_is_actual_minus_target zero_target _ zero_target_row Hrun)
      as (_ & Hnum & _); [apply list_elem_of_here|].
    apply Hnum. reflexivity.
  - assert (process_realization on_target_int = Response on_target_int_response)
      as Hrun by (vm_compute; reflexivity).
    split; [exact Hrun|].
    destruct (variance_is_actual_minus_target on_target_int _ on_target_int_row Hrun)
      as (_ & _ & Hint); [apply list_elem_of_here|].
    apply (Hint 15%Z). reflexivity.
Defined.

(** X4 on a commit that has only an [id]. *)
Lemma no_targets_never_fails_witness :
  valueCommit no_targets !! "kpiTargets" = None ∧
  ∃ resp, process_realization no_targets = Response resp ∧
    result_kpiId <$> report_results (realizationReport resp) = ["latency"; "revenue"] ∧
    renewalAlert resp = {["status" := PStr "ok"]}.
Proof.
  assert (valueCommit no_targets !! "kpiTargets" = None) as Hkey
    by (vm_compute; reflexivity).
  split; [exact Hkey|].
  destruct (no_targets_never_fails no_targets (or_introl Hkey))
    as (resp & Hrun & Hids & _ & Halert).
  exists resp. split; [exact Hrun|]. split; [|exact Halert].
  rewrite Hids. vm_compute. reflexivity.
Defined.

(** X5 on a commit whose second entry has no [kpiId], with no telemetry. *)
Lemma unfiled_target_fails_witness :
  process_realization unkeyed = HTTPException 500 (KeyError "kpiId").
Proof.
  apply (unfiled_target_fails unkeyed [target "revenue" 50000 "usd"]
           [target "nps" 40 "points"] (PDict unkeyed_entry)).
  - vm_compute. reflexivity.
  - vm_compute. reflexivity.
  - vm_compute. reflexivity.
Defined.

(** X6 on the mixed request sent again with other timestamps. *)
Lemma answer_depends_only_on_readings_witness :
  process_realization mixed_later = Response mixed_response.
Proof.
  rewrite (answer_depends_only_on_readings mixed_later mixed).
  - vm_compute. reflexivity.
  - reflexivity.
  - reflexivity.
  - vm_compute. reflexivity.
Defined.

(** X7 on the mixed request with its two targets swapped. *)
Lemma target_order_irrelevant_witness :
  process_realization
    (with_targets [target "nps" 40 "points"; target "revenue" 50000 "usd"] mixed) =
  process_realization
    (with_targets [target "revenue" 50000 "usd"; target "nps" 40 "points"] mixed).
Proof.
  apply (target_order_irrelevant mixed).
  - vm_compute. reflexivity.
  - vm_compute. apply NoDup_cons. split.
    + intros Hin. apply list_elem_of_singleton in Hin. discriminate.
    + apply NoDup_singleton.
  - apply Permutation_swap.
Defined.

(** X8 on the mixed request: "revenue" averages 35000 against 50000. *)
Lemma risk_iff_mean_below_target_witness :
  is_ValueCommit (valueCommit mixed) = true ∧
  process_realization mixed = Response mixed_response ∧
  ∃ k d x, k ∈ kpiId <$> telemetryData mixed ∧
    last_target (commit_targets mixed) k = Some d ∧
    target_number (dict_get d "targetValue") = Some x ∧
    ltb (arithmetic_mean (group_values k (telemetryData mixed))) x = true.
Proof.
  assert (is_ValueCommit (valueCommit mixed) = true) as Hvc
    by (vm_compute; reflexivity).
  assert (process_realization mixed = Response mixed_response)
    as Hrun by (vm_compute; reflexivity).
  split; [exact Hvc|]. split; [exact Hrun|].
  destruct (risk_iff_mean_below_target mixed mixed_response Hvc Hrun) as [_ Hlaw].
  apply (Hlaw Q_ltb_sub). vm_compute. reflexivity.
Defined.

(** X9 on the mixed request reduced to "latency". *)
Lemma kpi_results_are_independent_witness :
  process_realization mixed = Response mixed_response ∧
  process_realization (only_kpi "latency" mixed) =
    Response (response [latency_row] ok_alert).
Proof.
  assert (process_realization mixed = Response mixed_response)
    as Hrun by (vm_compute; reflexivity).
  split; [exact Hrun|].
  etrans.
  - apply (kpi_results_are_independent mixed mixed_response latency_row Hrun).
    apply list_elem_of_here.
  - vm_compute. reflexivity.
Defined.

(** X10 on a commit with a textual target for "nps", which has no sample,
    and on a commit whose target for "time-saved", which has samples, is
    the integer 2^1024. *)
Lemma bad_target_value_fails_iff_observed_witness :
  (∃ resp, process_realization zero_target = Response resp) ∧
  (∃ e, process_realization huge_target = HTTPException 500 e) ∧
  (∀ status e, process_realization huge_target = HTTPException status e →
               status = 500 ∧ e = OverflowError).
Proof.
  destruct (bad_target_value_fails_iff_observed zero_target
              [target "defects" 0 "count";
               PDict (<["kpiId" := PStr "nps"]> {["targetValue" := PStr "forty"]})])
    as (_ & _ & Hok); [vm_compute; reflexivity..|].
  destruct (bad_target_value_fails_iff_observed huge_target
              [int_target "time-saved" (2 ^ 1024) "percent"])
    as (Hfail & Herr & _); [vm_compute; reflexivity..|].
  split; [|split].
  - apply Hok. intros k d Hk Hlast.
    apply list_elem_of_singleton in Hk. subst k.
    vm_compute in Hlast. injection Hlast as <-. vm_compute. reflexivity.
  - apply Hfail.
    exists "time-saved", (int_target_dict "time-saved" (2 ^ 1024) "percent").
    split; [apply list_elem_of_here|]. split; vm_compute; reflexivity.
  - intros status e Hrun.
    destruct (Herr status e Hrun) as (-> & ks1 & k & ks2 & d & Hobs & _ & Hlast & _ & ->).
    split; [done|].
    assert (k = "time-saved") as ->.
    { assert (k ∈ first_observed (kpiId <$> telemetryData huge_target)) as Hk
        by (rewrite Hobs, elem_of_app, elem_of_cons; auto).
      by apply list_elem_of_singleton in Hk. }
    vm_compute in Hlast. injection Hlast as <-. reflexivity.
Defined.

(** X12 on a commit whose [kpiTargets] is the text "none". *)
Lemma non_list_targets_fail_witness :
  process_realization textual_targets = HTTPException 500 TypeError.
Proof.
  apply (non_list_targets_fail textual_targets (PStr "none")).
  - vm_compute. reflexivity.
  - intros ts. discriminate.
  - discriminate.
  - discriminate.
Defined.

(** X13 on the request below target and a first sample of "latency". *)
Lemma one_more_sample_witness :
  process_realization below_target = Response below_target_response ∧
  process_realization (with_sample (sample "latency" 120) below_target) =
    Response below_target_then_latency ∧
  ∃ r, report_results (realizationReport below_target_then_latency) =
         report_results (realizationReport below_target_response) ++ [r] ∧
       result_kpiId r = "latency" ∧
       result_actualValue r = arithmetic_mean [120%Q].
Proof.
  assert (process_realization below_target = Response below_target_response)
    as Hrun by (vm_compute; reflexivity).
  assert (process_realization (with_sample (sample "latency" 120) below_target) =
            Response below_target_then_latency) as Hrun' by (vm_compute; reflexivity).
  split; [exact Hrun|]. split; [exact Hrun'|].
  destruct (one_more_sample below_target (sample "latency" 120) _ _ Hrun Hrun')
    as [Hnew _].
  apply Hnew. intros Hin. apply list_elem_of_singleton in Hin. discriminate.
Defined.

(** * The orchestrator's task runs *)

Module OrchestratorFacts.
Import Orchestrator.

Implicit Types (self : Orchestrator) (task : Task) (table : list (string * Task))
  (k : string).

(** ** The table *)

Lemma tasks_get_update f table k k' :
  tasks_get (tasks_update f table k) k' =
  if decide (k' = k) then f <$> tasks_get table k else tasks_get table k'.
Proof.
  induction table as [|[k0 task] rest IH]; cbn.
  - by destruct (decide (k' = k)).
  - destruct (decide (k0 = k)) as [->|Hne]; cbn.
    + destruct (decide (k = k')) as [->|Hne'].
      * by rewrite decide_True.
      * by rewrite decide_False by done.
    + destruct (decide (k0 = k')) as [->|Hne'].
      * by rewrite decide_False by done.
      * apply IH.
Qed.

Lemma tasks_update_keys f table k : (tasks_update f table k).*1 = table.*1.
Proof.
  induction table as [|[k0 task] rest IH]; [done|]. cbn.
  destruct (decide (k0 = k)); cbn; [done|]. by rewrite IH.
Qed.

Lemma tasks_update_update f g table k :
  tasks_update f (tasks_update g table k) k = tasks_update (f ∘ g) table k.
Proof.
  induction table as [|[k0 task] rest IH]; [done|]. cbn.
  destruct (decide (k0 = k)) as [->|Hne]; cbn.
  - by rewrite decide_True.
  - by rewrite decide_False, IH by done.
Qed.

Lemma tasks_update_ext f g table k :
  (∀ task, tasks_get table k = Some task → f task = g task) →
  tasks_update f table k = tasks_update g table k.
Proof.
  induction table as [|[k0 task] rest IH]; [done|]. cbn.
  destruct (decide (k0 = k)) as [->|Hne]; intros Hfg.
  - by rewrite Hfg.
  - by rewrite IH.
Qed.

Lemma tasks_update_same f table k :
  (∀ task, tasks_get table k = Some task → f task = task) →
  tasks_update f table k = table.
Proof.
  induction table as [|[k0 task] rest IH]; [done|]. cbn.
  destruct (decide (k0 = k)) as [->|Hne]; intros Hf.
  - by rewrite Hf.
  - by rewrite IH.
Qed.

Lemma tasks_update_const f table k task :
  tasks_get table k = Some task →
  tasks_update f table k = tasks_update (λ _, f task) table k.
Proof.
  intros Hget. apply tasks_update_ext. intros t Ht. congruence.
Qed.

Lemma with_status_same task : with_status (status task) task = task.
Proof. by destruct task. Qed.

(** ** Dependencies *)

(** Updates that keep every status keep every dependency check. *)
Lemma check_dependencies_update f self k task :
  (∀ t, status (f t) = status t) →
  _check_dependencies (update_task f self k) task = _check_dependencies self task.
Proof.
  intros Hf. unfold _check_dependencies.
  induction (dependencies task) as [|dep deps IH]; [done|].
  cbn [forallb]. rewrite IH. f_equal.
  cbn. rewrite tasks_get_update. destruct (decide (dep = k)) as [->|]; [|done].
  destruct (tasks_get (tasks self) k); cbn; [|done]. by rewrite Hf.
Qed.

(** ** One run of a task *)

Lemma backoff_raises_succ (n : Z) :
  backoff_raises n = false →
  (n < 1024)%Z ∧ (backoff_raises (n + 1) = true ↔ (1024 ≤ n + 1)%Z).
Proof.
  unfold backoff_raises, backoff_sleep, fits_float.
  assert (1024 < 2 ^ 1024 - 2 ^ 970)%Z as Hbound by (vm_compute; reflexivity).
  generalize dependent (2 ^ 1024 - 2 ^ 970)%Z. intros bound Hbound.
  destruct (decide (1024 ≤ n)%Z) as [Hn|Hn];
    [by rewrite bool_decide_true by done|].
  rewrite (bool_decide_false (1024 ≤ n)%Z) by done. cbn [orb].
  destruct (decide (Z.abs n < bound)%Z) as [Hfit|Hfit];
    [|by rewrite bool_decide_false by done].
  intros _. split; [lia|].
  destruct (decide (1024 ≤ n + 1)%Z) as [Hn'|Hn'].
  - by rewrite bool_decide_true by done.
  - rewrite (bool_decide_false (1024 ≤ n + 1)%Z) by done.
    rewrite bool_decide_true by lia. cbn. split; [discriminate|done].
Qed.

Lemma exhausted_retry task :
  (retry_count task < max_retries task)%Z →
  backoff_raises (retry_count task + 1) = false →
  exhausted (with_retry_count (retry_count task + 1) task) = exhausted task ∧
  escalated (with_retry_count (retry_count task + 1) task) = escalated task.
Proof.
  intros Hlt Hok. unfold escalated, exhausted, backoff_overflows. cbn.
  rewrite Hok. destruct (backoff_raises_succ _ Hok) as [Hsmall Hnext].
  rewrite (bool_decide_true (retry_count task < max_retries task)%Z) by done.
  cbn [andb orb].
  destruct (decide (1024 ≤ max_retries task)%Z) as [Hbig|Hbig].
  - rewrite (bool_decide_true (1024 ≤ max_retries task)%Z) by done.
    rewrite bool_decide_true by lia. rewrite orb_true_r. cbn [andb negb].
    assert (backoff_raises (retry_count task + 1 + 1) = true →
            (retry_count task + 1 + 1 = 1024)%Z) as Hval
      by (intros Hraise%Hnext; lia).
    destruct (backoff_raises (retry_count task + 1 + 1)); [|done].
    by rewrite Hval.
  - rewrite (bool_decide_false (1024 ≤ max_retries task)%Z) by done.
    assert (bool_decide (retry_count task + 1 < max_retries task)%Z &&
            (backoff_raises (retry_count task + 1 + 1) || false) = false) as ->.
    { destruct (decide (retry_count task + 1 < max_retries task)%Z) as [Hlt'|Hge'].
      - rewrite bool_decide_true by done. cbn [andb]. rewrite orb_false_r.
        apply not_true_is_false. rewrite Hnext. lia.
      - by rewrite bool_decide_false by done. }
    cbn [negb].
    by replace (Z.max (retry_count task + 1) (max_retries task))
      with (Z.max (retry_count task) (max_retries task)) by lia.
Qed.

Lemma exhausted_last task :
  (max_retries task ≤ retry_count task)%Z →
  exhausted task = with_status FAILED task ∧
  escalated task = bool_decide (priority task = P0_CRITICAL).
Proof.
  intros Hge. unfold escalated, exhausted, backoff_overflows.
  rewrite bool_decide_false by lia. cbn [andb negb]. rewrite Z.max_l by lia.
  split; [by destruct task|]. apply andb_true_r.
Qed.

Lemma exhausted_raised task :
  (retry_count task < max_retries task)%Z →
  backoff_raises (retry_count task + 1) = true →
  exhausted task = with_status FAILED (with_retry_count (retry_count task + 1) task) ∧
  escalated task = false.
Proof.
  intros Hlt Hraise. unfold escalated, exhausted, backoff_overflows.
  rewrite bool_decide_true by done. rewrite Hraise. cbn [andb orb negb].
  by rewrite andb_false_r.
Qed.

(** What a run leaves of a task that could run and was not complete. *)
Lemma execute_task_within_exhausts (depth : nat) self k task :
  tasks_get (tasks self) k = Some task →
  _check_dependencies self task = true →
  blockers task = [] →
  status task ≠ COMPLETE →
  (retries_left task ≤ depth)%nat →
  execute_task_within depth self k =
  (false,
   {| tasks := tasks_update (λ _, exhausted task) (tasks self) k;
      escalations :=
        escalations self ++ (if escalated task then [exhausted task] else []) |}).
Proof.
  revert self task. induction depth as [|depth IH];
    intros self task Hget Hdeps Hblock Hstatus Hdepth.
  all: cbn [execute_task_within]; rewrite Hget, Hdeps; cbn [negb].
  all: rewrite bool_decide_false by (by rewrite Hblock; intros []).
  all: assert (_execute_task_logic task = false) as ->
         by (unfold _execute_task_logic, _validate_acceptance_criteria;
             destruct (status task); try done; by rewrite bool_decide_false).
  all: unfold retries_left in Hdepth.
  all: assert ((max_retries task ≤ retry_count task)%Z →
    (let self' := update_task (with_status FAILED) self k in
     (false,
      if bool_decide (priority task = P0_CRITICAL)
      then _escalate_critical_failure self' (with_status FAILED task)
      else self')) =
    (false,
     {| tasks := tasks_update (λ _, exhausted task) (tasks self) k;
        escalations :=
          escalations self ++ (if escalated task then [exhausted task] else []) |}))
    as Hlast.
  1,3: intros Hge; destruct (exhausted_last _ Hge) as [-> ->];
       cbn; unfold update_task, _escalate_critical_failure;
       rewrite (tasks_update_const _ _ _ _ Hget); f_equal;
       destruct (bool_decide (priority task = P0_CRITICAL)); cbn; [done|];
       by rewrite app_nil_r.
  - rewrite bool_decide_false by lia. apply Hlast. lia.
  - destruct (decide (retry_count task < max_retries task)%Z) as [Hlt|Hge].
    2: { rewrite bool_decide_false by done. apply Hlast. lia. }
    rewrite bool_decide_true by done. cbv zeta.
    set (task' := with_retry_count (retry_count task + 1) task).
    destruct (backoff_raises (retry_count task + 1)) eqn:Hraise.
    + destruct (exhausted_raised task Hlt Hraise) as [-> ->].
      unfold backoff_raises in Hraise.
      destruct (backoff_sleep (retry_count task + 1)) as [[]|e]; [discriminate|].
      unfold update_task. cbn [tasks escalations]. rewrite tasks_update_update.
      rewrite app_nil_r.
      by rewrite (tasks_update_const _ _ _ _ Hget).
    + destruct (exhausted_retry task Hlt Hraise) as [Hex Hesc].
      unfold backoff_raises in Hraise.
      destruct (backoff_sleep (retry_count task + 1)) as [[]|e]; [|discriminate].
      rewrite (IH _ task').
      * unfold update_task. cbn [tasks escalations]. fold task' in Hex, Hesc.
        by rewrite Hex, Hesc, tasks_update_update.
      * cbn. rewrite tasks_get_update, decide_True, Hget by done. done.
      * by rewrite check_dependencies_update.
      * done.
      * done.
      * unfold retries_left, task'. cbn. lia.
Qed.

Lemma execute_task_ran self k : execute_task self k = ran self k.
Proof.
  unfold execute_task, ran.
  destruct (tasks_get (tasks self) k) as [task|] eqn:Hget; cbn [from_option].
  2: { cbn. by rewrite Hget. }
  destruct (_check_dependencies self task) eqn:Hdeps.
  2: { destruct (retries_left task); cbn; by rewrite Hget, Hdeps. }
  destruct (decide (blockers task = [])) as [Hblock|Hblock].
  2: { rewrite bool_decide_true by done.
       destruct (retries_left task); cbn; rewrite Hget, Hdeps; cbn;
         by rewrite bool_decide_true. }
  rewrite bool_decide_false by (by intros []). cbn [negb orb].
  destruct (decide (status task = COMPLETE)) as [Hdone|Hnot].
  - rewrite bool_decide_true by done.
    assert (_execute_task_logic task = true) as Hlogic
      by (unfold _execute_task_logic; by rewrite Hdone).
    assert (update_task (with_status COMPLETE) self k = self) as Hsame.
    { unfold update_task. rewrite tasks_update_same; [by destruct self|].
      intros t Ht. rewrite Hget in Ht. injection Ht as <-.
      rewrite <- Hdone. apply with_status_same. }
    destruct (retries_left task); cbn; rewrite Hget, Hdeps; cbn;
      rewrite bool_decide_false by (by intros []); by rewrite Hlogic, Hsame.
  - rewrite bool_decide_false by done.
    by apply execute_task_within_exhausts.
Qed.

(** X14. [execute_task] returns [True] exactly for a task that is in the
    table, has all its dependencies complete, has no blocker and is already
    [COMPLETE]; it then leaves the orchestrator as it was.  No run ever
    completes a task. *)
Theorem execute_task_true_iff_already_complete self k :
  ((execute_task self k).1 = true ↔
     ∃ task, tasks_get (tasks self) k = Some task ∧
       _check_dependencies self task = true ∧ blockers task = [] ∧
       status task = COMPLETE) ∧
  ((execute_task self k).1 = true → (execute_task self k).2 = self).
Proof.
  rewrite execute_task_ran. unfold ran.
  destruct (tasks_get (tasks self) k) as [task|] eqn:Hget.
  2: { split; [|done]. split; [done|]. by intros (? & ? & _). }
  destruct (_check_dependencies self task) eqn:Hdeps; cbn [negb orb].
  2: { split; [|done]. split; [done|]. intros (? & [= <-] & ? & _). congruence. }
  destruct (decide (blockers task = [])) as [Hb|Hb].
  2: { rewrite bool_decide_true by done. split; [|done].
       split; [done|]. intros (? & [= <-] & _ & ? & _). congruence. }
  rewrite bool_decide_false by (by intros []).
  destruct (decide (status task = COMPLETE)) as [Hs|Hs].
  - rewrite bool_decide_true by done. split; [|done].
    split; [|done]. intros _. by exists task.
  - rewrite bool_decide_false by done. split; [|done].
    split; [done|]. intros (? & [= <-] & _ & _ & ?). congruence.
Qed.


(** X16. A run touches one task only, and of that task only the status
    and the retry count: the keys of the table and their order stay, every
    other task stays as it is, and the escalations written before stay. *)
Theorem execute_task_touches_one_task self k :
  (tasks (execute_task self k).2).*1 = (tasks self).*1 ∧
  (∀ k', k' ≠ k →
     tasks_get (tasks (execute_task self k).2) k' = tasks_get (tasks self) k') ∧
  (∀ task, tasks_get (tasks self) k = Some task →
     ∃ task', tasks_get (tasks (execute_task self k).2) k = Some task' ∧
       with_status (status task) (with_retry_count (retry_count task) task') = task) ∧
  escalations self `prefix_of` escalations (execute_task self k).2.
Proof.
  rewrite execute_task_ran. unfold ran.
  destruct (tasks_get (tasks self) k) as [task|] eqn:Hget.
  2: { repeat split; try done. }
  destruct (negb (_check_dependencies self task) || bool_decide (blockers task ≠ [])).
  { cbn. repeat split.
    - apply tasks_update_keys.
    - intros k' Hne. by rewrite tasks_get_update, decide_False.
    - intros t [= <-]. rewrite tasks_get_update, decide_True, Hget by done.
      eexists. split; [done|]. by destruct task.
    - done. }
  destruct (bool_decide (status task = COMPLETE)).
  { repeat split; try done. intros t [= <-]. exists task. split; [done|]. by destruct task. }
  cbn. repeat split.
  - apply tasks_update_keys.
  - intros k' Hne. by rewrite tasks_get_update, decide_False.
  - intros t [= <-]. rewrite tasks_get_update, decide_True, Hget by done.
    eexists. split; [done|]. by destruct task.
  - by apply prefix_app_r.
Qed.

(** ** Sorting by priority *)

Lemma insert_by_Permutation {A} (key : A → Z) (x : A) (l : list A) :
  insert_by key x l ≡ₚ x :: l.
Proof.
  induction l as [|y l IH]; [done|]. cbn.
  destruct (bool_decide (key x ≤ key y)%Z); [done|].
  rewrite IH. apply Permutation_swap.
Qed.

Lemma sorted_Permutation {A} (key : A → Z) (l : list A) : sorted key l ≡ₚ l.
Proof.
  induction l as [|x l IH]; [done|]. unfold sorted in *. cbn.
  by rewrite insert_by_Permutation, IH.
Qed.

Lemma head_insert_by {A} (key : A → Z) (x : A) (l : list A) :
  head (insert_by key x l) =
  match head l with
  | Some y => if bool_decide (key x ≤ key y)%Z then Some x else Some y
  | None => Some x
  end.
Proof.
  destruct l as [|y l]; [done|]. cbn.
  by destruct (bool_decide (key x ≤ key y)%Z).
Qed.

(** The first element of a stable ascending sort is the first of the
    least elements. *)
Lemma head_sorted {A} (key : A → Z) (l : list A) (x : A) :
  head (sorted key l) = Some x →
  ∃ l1 l2, l = l1 ++ x :: l2 ∧
    (∀ y, y ∈ l1 → (key x < key y)%Z) ∧ (∀ y, y ∈ l2 → (key x ≤ key y)%Z).
Proof.
  revert x. induction l as [|a l IH]; intros x; [done|].
  unfold sorted in *. cbn [foldr]. rewrite head_insert_by.
  destruct (head (foldr (insert_by key) [] l)) as [y|] eqn:Hhead.
  - destruct (IH y eq_refl) as (l1 & l2 & -> & Hl1 & Hl2).
    destruct (decide (key a ≤ key y)%Z) as [Hle|Hgt].
    + rewrite bool_decide_true by done. intros [= <-].
      exists [], (l1 ++ y :: l2). split; [done|]. split.
      * intros z Hz. by apply not_elem_of_nil in Hz.
      * intros z [Hz|Hz]%elem_of_app.
        -- specialize (Hl1 z Hz). lia.
        -- apply elem_of_cons in Hz as [->|Hz]; [done|].
           specialize (Hl2 z Hz). lia.
    + rewrite bool_decide_false by done. intros [= <-].
      exists (a :: l1), l2. split; [done|]. split; [|done].
      intros z [->|Hz]%elem_of_cons; [lia|by apply Hl1].
  - intros [= <-]. exists [], l. split; [done|].
    assert (l = []) as ->.
    { apply Permutation_nil_r. rewrite <- (sorted_Permutation key l).
      unfold sorted. by destruct (foldr (insert_by key) [] l). }
    split; intros z Hz; by apply not_elem_of_nil in Hz.
Qed.

Lemma head_sorted_None {A} (key : A → Z) (l : list A) :
  head (sorted key l) = None ↔ l = [].
Proof.
  split; [|by intros ->]. intros Hhead.
  apply Permutation_nil_r. rewrite <- (sorted_Permutation key l).
  by destruct (sorted key l).
Qed.

Lemma filter_split {A} (P : A → Prop) `{!∀ x, Decision (P x)}
    (l f1 f2 : list A) (x : A) :
  filter P l = f1 ++ x :: f2 →
  ∃ l1 l2, l = l1 ++ x :: l2 ∧ filter P l1 = f1 ∧ filter P l2 = f2.
Proof.
  revert f1. induction l as [|a l IH]; intros f1 Hf.
  - by destruct f1.
  - rewrite filter_cons in Hf. destruct (decide (P a)) as [Ha|Ha].
    + destruct f1 as [|b f1].
      * injection Hf as <- Hf. exists [], l. by rewrite filter_nil.
      * injection Hf as <- Hf. destruct (IH _ Hf) as (l1 & l2 & -> & <- & <-).
        exists (a :: l1), l2. by rewrite filter_cons, decide_True.
    + destruct (IH _ Hf) as (l1 & l2 & -> & <- & <-).
      exists (a :: l1), l2. by rewrite filter_cons, decide_False.
Qed.

Lemma get_next_task_available self t :
  _get_next_task self = Some t →
  available self t = true ∧ t ∈ (tasks self).*2.
Proof.
  unfold _get_next_task. intros Hhead.
  apply head_sorted in Hhead as (f1 & f2 & Hf & _).
  assert (t ∈ filter (λ t, available self t = true) (tasks self).*2) as Hin.
  { rewrite Hf. apply elem_of_app. right. by left. }
  by apply list_elem_of_filter in Hin.
Qed.

(** X17. [_get_next_task] returns no task exactly when no task is
    available (not started or in progress, dependencies complete, no
    blocker).  Otherwise it returns an available task of the most urgent
    priority, and among these the first in the order of the table. *)
Theorem get_next_task_is_first_most_urgent self :
  (_get_next_task self = None ↔
     ∀ t, t ∈ (tasks self).*2 → available self t = false) ∧
  (∀ t, _get_next_task self = Some t →
     available self t = true ∧
     ∃ l1 l2, (tasks self).*2 = l1 ++ t :: l2 ∧
       (∀ t', t' ∈ l1 → available self t' = true →
              (priority_value (priority t) < priority_value (priority t'))%Z) ∧
       (∀ t', t' ∈ l2 → available self t' = true →
              (priority_value (priority t) ≤ priority_value (priority t'))%Z)).
Proof.
  unfold _get_next_task. split.
  - rewrite head_sorted_None. split.
    + intros Hnil t Ht. apply not_true_is_false. intros Hav.
      by apply (filter_nil_not_elem_of _ _ t Hnil).
    + intros Hnone.
      destruct (filter _ _) as [|t rest] eqn:Hf; [done|].
      assert (t ∈ filter (λ t, available self t = true) (tasks self).*2) as Hin
        by (rewrite Hf; by left).
      apply list_elem_of_filter in Hin as [Hav Hin].
      rewrite (Hnone t Hin) in Hav. discriminate.
  - intros t Hhead.
    apply head_sorted in Hhead as (f1 & f2 & Hf & Hf1 & Hf2).
    split.
    + assert (t ∈ filter (λ t, available self t = true) (tasks self).*2) as Hin.
      { rewrite Hf. apply elem_of_app. right. by left. }
      by apply list_elem_of_filter in Hin as [? _].
    + apply filter_split in Hf as (l1 & l2 & Hl & <- & <-).
      exists l1, l2. split; [done|]. split.
      * intros t' Ht' Hav. apply Hf1. by apply list_elem_of_filter.
      * intros t' Ht' Hav. apply Hf2. by apply list_elem_of_filter.
Qed.

(** ** Tables keyed by id *)


Lemma tasks_get_elem table k task :
  NoDup table.*1 → (k, task) ∈ table → tasks_get table k = Some task.
Proof.
  induction table as [|[k0 t0] rest IH]; intros Hnd Hin.
  - by apply not_elem_of_nil in Hin.
  - cbn in *. apply NoDup_cons in Hnd as [Hout Hnd].
    apply elem_of_cons in Hin as [[= -> ->]|Hin].
    + by rewrite decide_True.
    + rewrite decide_False; [by apply IH|]. intros ->. apply Hout.
      apply list_elem_of_fmap. by exists (k, task).
Qed.

Lemma tasks_update_Forall (P : string * Task → Prop) f table k :
  (∀ k' t, P (k', t) → P (k', f t)) →
  Forall P table → Forall P (tasks_update f table k).
Proof.
  intros Hf. induction 1 as [|[k0 t0] rest Hhead Hrest IH]; [constructor|]. cbn.
  destruct (decide (k0 = k)); constructor; auto.
Qed.

(** Updates that keep a task complete or incomplete, as it was, keep
    every dependency check. *)
Lemma check_dependencies_update_complete f self k task :
  (∀ t, tasks_get (tasks self) k = Some t →
        (status (f t) = COMPLETE ↔ status t = COMPLETE)) →
  _check_dependencies
    {| tasks := tasks_update f (tasks self) k; escalations := escalations self |} task =
  _check_dependencies self task.
Proof.
  intros Hf. unfold _check_dependencies.
  induction (dependencies task) as [|dep deps IH]; [done|].
  cbn [forallb]. rewrite IH. f_equal.
  cbn. rewrite tasks_get_update. destruct (decide (dep = k)) as [->|]; [|done].
  destruct (tasks_get (tasks self) k) as [t|]; cbn; [|done].
  apply bool_decide_ext. by apply Hf.
Qed.

Lemma check_dependencies_escalations table e1 e2 task :
  _check_dependencies {| tasks := table; escalations := e1 |} task =
  _check_dependencies {| tasks := table; escalations := e2 |} task.
Proof. done. Qed.

(** X18. Running the task that [_get_next_task] picks never succeeds when
    the table is keyed by id: the run returns [False] and leaves that task
    [FAILED]; every other task is then exactly as available as before, and
    the picked one no longer is. *)
Theorem next_task_always_fails self t :
  well_keyed self →
  _get_next_task self = Some t →
  (execute_task self (id t)).1 = false ∧
  (∃ t', tasks_get (tasks (execute_task self (id t)).2) (id t) = Some t' ∧
         status t' = FAILED ∧
         available (execute_task self (id t)).2 t' = false) ∧
  (∀ t', available (execute_task self (id t)).2 t' = available self t').
Proof.
  intros [Hnd Hids] Hnext.
  destruct (get_next_task_available self t Hnext) as (Hav & Hin).
  apply list_elem_of_fmap in Hin as ([k t0] & -> & Hin). cbn [snd] in *.
  assert (id t0 = k) as Hid.
  { rewrite Forall_forall in Hids. by apply (Hids (k, t0)). }
  rewrite Hid. pose proof (tasks_get_elem _ _ _ Hnd Hin) as Hget.
  unfold available in Hav.
  apply andb_true_iff in Hav as [Hav Hblock]. apply andb_true_iff in Hav as [Hst Hdeps].
  apply bool_decide_eq_true in Hblock. apply bool_decide_eq_true in Hst.
  assert (status t0 ≠ COMPLETE) as Hnot by (destruct Hst as [-> | ->]; done).
  rewrite execute_task_ran. unfold ran. rewrite Hget, Hdeps. cbn [negb orb].
  rewrite bool_decide_false by (by intros []).
  rewrite bool_decide_false by done. cbn [fst snd tasks].
  assert (∀ t',
    _check_dependencies
      {| tasks := tasks_update (λ _, exhausted t0) (tasks self) k;
         escalations :=
           escalations self ++ (if escalated t0 then [exhausted t0] else []) |} t' =
    _check_dependencies self t') as Hsame.
  { intros t'.
    rewrite (check_dependencies_escalations _ _ (escalations self)).
    apply check_dependencies_update_complete. intros ? [= <-]%(eq_trans (eq_sym Hget)).
    cbn. split; [done|]. by intros ?. }
  split; [done|]. split.
  - exists (exhausted t0). rewrite tasks_get_update, decide_True, Hget by done.
    split; [done|]. split; [done|]. unfold available. cbn.
    by rewrite bool_decide_false by (by intros [|]).
  - intros t'. unfold available. by rewrite Hsame.
Qed.

(** ** A sprint *)







(** ** The orchestrator as initialised *)

Lemma initial_well_keyed : well_keyed initial.
Proof.
  split.
  - apply (bool_decide_unpack _). vm_compute. reflexivity.
  - repeat constructor.
Qed.


(** X18 on the orchestrator as initialised: "sdui_engine" is picked, and
    its run fails. *)
Lemma next_task_always_fails_witness :
  well_keyed initial ∧ _get_next_task initial = Some sdui_engine ∧
  (execute_task initial (id sdui_engine)).1 = false.
Proof.
  assert (_get_next_task initial = Some sdui_engine) as Hnext
    by (vm_compute; reflexivity).
  split; [exact initial_well_keyed|]. split; [exact Hnext|].
  by destruct (next_task_always_fails initial sdui_engine initial_well_keyed Hnext)
    as [? _].
Defined.


End OrchestratorFacts.

(** * The integrity service: properties *)

Module IntegrityFacts.
Import Integrity.

Section Facts.
Context {artifact : Type}.

Lemma collect_issues_unlisted (rules : list string) (a : artifact) issues :
  "Quantify value credibly and conservatively" ∉ rules →
  collect_issues rules a issues = inr issues.
Proof.
  revert issues. induction rules as [|rule rest IH]; intros issues Hout; [done|].
  apply not_elem_of_cons in Hout as [Hne Hout]. cbn. unfold rule_functions.
  rewrite decide_False by done. by apply IH.
Qed.

Lemma collect_issues_listed (rules : list string) (a : artifact) issues :
  "Quantify value credibly and conservatively" ∈ rules →
  collect_issues rules a issues = inl (NameError "json").
Proof.
  revert issues. induction rules as [|rule rest IH]; intros issues Hin.
  - by apply not_elem_of_nil in Hin.
  - cbn. unfold rule_functions.
    destruct (decide (rule = "Quantify value credibly and conservatively")) as [->|Hne];
      [done|].
    apply IH. by apply elem_of_cons in Hin as [?|?].
Qed.

(** X20. The handler fails exactly when the manifesto lists the rule
    "Quantify value credibly and conservatively": its check needs the name
    [json], which the module does not bind, and the 500 carries that
    [NameError].  Otherwise the artifact comes back as it was, with no
    correction: rules the table does not know are skipped. *)
Theorem process_integrity_fails_iff_rule_listed (data : IntegrityRequest artifact) :
  ("Quantify value credibly and conservatively" ∈ manifestoRules data →
     process_integrity data = HTTPError 500 "name 'json' is not defined") ∧
  ("Quantify value credibly and conservatively" ∉ manifestoRules data →
     process_integrity data =
       Returned {| validatedArtifact := request_artifact data; corrections := [] |}).
Proof.
  unfold process_integrity. split; intros Hrule.
  - by rewrite collect_issues_listed.
  - by rewrite collect_issues_unlisted.
Qed.

End Facts.
End IntegrityFacts.
